(** * taxadb: the parse-merge-load pipeline of [taxadb/app.py]

    A shallow embedding of [_parse_taxdump] and [_parse_accession2taxid]
    together with the Python string and list primitives they call and a
    model of the two tables declared by the classes [Taxa] and [Sequence].

    Python dictionaries are finite maps from field names to field texts,
    exceptions are the [Raise] results of an error monad, and the database
    handle [db] is a state threaded through the calls.  A file is given by
    its text, as the file object presents it: decoded, and for the two dump
    files with the line ends that text mode yields.  Opening the files and
    the calls of [print] are left out. *)

From Stdlib Require Import Ascii String.
From stdpp Require Import base strings list gmap fin_maps.

Local Open Scope string_scope.
Local Open Scope list_scope.

(** ** Python string methods *)

Module PyStr.

Definition TAB : ascii := "009"%char.
Definition LF : ascii := "010"%char.
Definition PIPE : ascii := "|"%char.

(** [s.split(sep)] for a one-character separator.  The result is never
    empty, so the first inner branch is never taken. *)
Fixpoint split (sep : ascii) (s : string) : list string :=
  match s with
  | EmptyString => [EmptyString]
  | String c s' =>
      if decide (c = sep) then EmptyString :: split sep s'
      else match split sep s' with
           | [] => [String c EmptyString]
           | w :: ws => String c w :: ws
           end
  end.

(** [s.lstrip(c)], [s.rstrip(c)] and [s.strip(c)] for a one-character set. *)
Fixpoint lstrip (c : ascii) (s : string) : string :=
  match s with
  | EmptyString => EmptyString
  | String a s' => if decide (a = c) then lstrip c s' else s
  end.

Fixpoint rstrip (c : ascii) (s : string) : string :=
  match s with
  | EmptyString => EmptyString
  | String a s' =>
      match rstrip c s' with
      | EmptyString => if decide (a = c) then EmptyString else String a EmptyString
      | r => String a r
      end
  end.

Definition strip (c : ascii) (s : string) : string := rstrip c (lstrip c s).

(** [needle in hay]. *)
Fixpoint startswith (p s : string) : bool :=
  match p, s with
  | EmptyString, _ => true
  | String _ _, EmptyString => false
  | String a p', String b s' => bool_decide (a = b) && startswith p' s'
  end.

Fixpoint contains (needle hay : string) : bool :=
  startswith needle hay ||
  match hay with
  | EmptyString => false
  | String _ hay' => contains needle hay'
  end.

(** The lines a file object yields when iterated: each keeps its line
    feed, the last one may lack it, an empty file yields none. *)
Fixpoint readlines (s : string) : list string :=
  match s with
  | EmptyString => []
  | String c s' =>
      if decide (c = LF) then String c EmptyString :: readlines s'
      else match readlines s' with
           | [] => [String c EmptyString]
           | l :: ls => String c l :: ls
           end
  end.

(** A text written as its lines, each closed by a line feed. *)
Definition unlines (ls : list string) : string :=
  foldr (fun l acc => l +:+ String LF acc) EmptyString ls.

(** The same, the last line being closed by a line feed or not. *)
Fixpoint file_text (ls : list string) (closed : bool) : string :=
  match ls with
  | [] => EmptyString
  | l :: ls' =>
      match ls' with
      | [] => if closed then l +:+ String LF EmptyString else l
      | _ :: _ => l +:+ String LF (file_text ls' closed)
      end
  end.

Definition no_char (c : ascii) (s : string) : Prop :=
  c ∉ list_ascii_of_string s.

End PyStr.

(** ** Exceptions and results *)

Inductive Exn : Type :=
| IndexError
| DatabaseError.

Inductive result (A : Type) : Type :=
| Ok (a : A)
| Raise (e : Exn).

Arguments Ok {A} a.
Arguments Raise {A} e.

Definition is_raise {A} (r : result A) : bool :=
  match r with Raise _ => true | Ok _ => false end.

Module Res.

Definition bind {A B} (r : result A) (k : A -> result B) : result B :=
  match r with
  | Ok a => k a
  | Raise e => Raise e
  end.

(** [l[i]] on a list. *)
Definition getitem {A} (l : list A) (i : nat) : result A :=
  match l !! i with
  | Some x => Ok x
  | None => Raise IndexError
  end.

(** A [for] loop that builds a list with [append], stopping at the
    first exception. *)
Fixpoint collect {A B} (f : A -> result (option B)) (xs : list A) : result (list B) :=
  match xs with
  | [] => Ok []
  | x :: xs' =>
      bind (f x) (fun o =>
      bind (collect f xs') (fun rest =>
      Ok (match o with Some b => b :: rest | None => rest end)))
  end.

End Res.

Notation "x <~ c ; k" := (Res.bind c (fun x => k))
  (at level 100, c at next level, right associativity, only parsing).

(** ** Records of the dump files *)

Abbreviation Dict := (gmap string string).

Definition node_record (line : string) : result Dict :=
  let line_list := PyStr.split PyStr.PIPE line in
  x0 <~ Res.getitem line_list 0;
  x1 <~ Res.getitem line_list 1;
  x2 <~ Res.getitem line_list 2;
  Ok ({[ "ncbi_taxid" := PyStr.strip PyStr.TAB x0;
         "parent_taxid" := PyStr.strip PyStr.TAB x1;
         "tax_name" := "";
         "lineage_level" := PyStr.strip PyStr.TAB x2 ]} : Dict).

Definition name_record (line : string) : result (option Dict) :=
  if PyStr.contains "scientific name" line then
    let line_list := PyStr.split PyStr.PIPE line in
    x0 <~ Res.getitem line_list 0;
    x1 <~ Res.getitem line_list 1;
    Ok (Some ({[ "ncbi_taxid" := PyStr.strip PyStr.TAB x0;
                 "tax_name" := PyStr.strip PyStr.TAB x1 ]} : Dict))
  else Ok None.

(** The list [nodes_data] after the first loop of [_parse_taxdump]. *)
Definition parse_nodes (nodes_file : string) : result (list Dict) :=
  Res.collect (fun line => d <~ node_record line; Ok (Some d))
              (PyStr.readlines nodes_file).

(** The list [names_data] after the second loop. *)
Definition parse_names (names_file : string) : result (list Dict) :=
  Res.collect name_record (PyStr.readlines names_file).

(** [{**nodes, **names}]: the keys of [names] win. *)
Definition merge (nodes names : Dict) : Dict := names ∪ nodes.

(** The list [taxa_info_list] after the [zip] loop. *)
Fixpoint merge_all (nodes_data names_data : list Dict) : list Dict :=
  match nodes_data, names_data with
  | nodes :: nodes_data', names :: names_data' =>
      merge nodes names :: merge_all nodes_data' names_data'
  | _, _ => []
  end.

(** ** Python list primitives of the insert loop *)

(** [range(start, stop, step)] for a positive step: its length is
    [(stop - start + step - 1) // step], its k-th item [start + k*step]. *)
Definition range (start stop step : nat) : list nat :=
  (fun k => start + k * step) <$> seq 0 ((stop - start + step - 1) / step).

(** [l[i:j]] for [0 <= i <= j]: both ends are clamped to the list. *)
Definition slice {A} (l : list A) (i j : nat) : list A :=
  take (j - i) (drop i l).

(** ** The store *)

(** A row of either table: the value of its [primary] field, which the
    store assigns, and the fields given to the insert. *)
Record Row : Type := { primary : nat; fields : Dict }.

(** The tables of the classes [Taxa] and [Sequence]. *)
Record Store : Type := { Taxa : list Row; Sequence : list Row }.

(** The database handle [db]: what the tables hold now and what they held
    when each open transactional scope began, innermost first. *)
Record Db : Type := { store : Store; savepoints : list Store }.

(** What the code asks the storage layer to do. *)
Inductive Write : Type :=
| InsertMany (rows : list Dict)
| Create (row : Dict)
| Commit.

(** [primary] is a [PrimaryKeyField]: a new row gets the successor of the
    largest key of its table. *)
Definition next_primary (table : list Row) : nat :=
  S (foldr Nat.max 0 (primary <$> table)).

Fixpoint append_rows (table : list Row) (rows : list Dict) : list Row :=
  match rows with
  | [] => table
  | d :: rows' =>
      append_rows (table ++ [{| primary := next_primary table; fields := d |}]) rows'
  end.

Definition empty_store : Store := {| Taxa := []; Sequence := [] |}.
Definition fresh_db : Db := {| store := empty_store; savepoints := [] |}.

(** Computations on the database handle that may raise; the handle
    keeps what was written before an exception. *)
Definition M (A : Type) : Type := Db -> result A * Db.

Module DbM.

Definition ret {A} (a : A) : M A := fun db => (Ok a, db).

Definition bind {A B} (c : M A) (k : A -> M B) : M B :=
  fun db =>
    match c db with
    | (Ok a, db') => k a db'
    | (Raise e, db') => (Raise e, db')
    end.

Definition lift {A} (r : result A) : M A := fun db => (r, db).

(** [for x in xs: body(x)]. *)
Fixpoint for_each {A} (xs : list A) (body : A -> M unit) : M unit :=
  match xs with
  | [] => ret tt
  | x :: xs' => bind (body x) (fun _ => for_each xs' body)
  end.

End DbM.

Notation "x <- c ;; k" := (DbM.bind c (fun x => k))
  (at level 100, c at next level, right associativity, only parsing).

Section Loader.

(** The storage layer is a collaborator: [fails s w] tells whether it
    refuses the write [w] when the tables hold [s] (a full disk, a
    conflict, a text it cannot convert for an integer column).  A write
    it accepts adds the rows as given, under fresh [primary] keys: the
    classes [Taxa] and [Sequence] declare no other key and no unique
    field. *)
Variable fails : Store -> Write -> bool.

(** [Taxa.insert_many(rows).execute()]. *)
Definition Taxa_insert_many (rows : list Dict) : M unit :=
  fun db =>
    if fails (store db) (InsertMany rows) then (Raise DatabaseError, db)
    else (Ok tt,
          {| store := {| Taxa := append_rows (Taxa (store db)) rows;
                         Sequence := Sequence (store db) |};
             savepoints := savepoints db |}).

(** [Sequence.create] on the fields of [row]. *)
Definition Sequence_create (row : Dict) : M unit :=
  fun db =>
    if fails (store db) (Create row) then (Raise DatabaseError, db)
    else (Ok tt,
          {| store := {| Taxa := Taxa (store db);
                         Sequence := append_rows (Sequence (store db)) [row] |};
             savepoints := savepoints db |}).

Definition begin : M unit :=
  fun db => (Ok tt, {| store := store db; savepoints := store db :: savepoints db |}).

Definition rollback : M unit :=
  fun db =>
    match savepoints db with
    | s :: sp => (Ok tt, {| store := s; savepoints := sp |})
    | [] => (Ok tt, db)
    end.

Definition commit : M unit :=
  fun db =>
    if fails (store db) Commit then (Raise DatabaseError, db)
    else (Ok tt, {| store := store db; savepoints := tail (savepoints db) |}).

(** [with db.atomic(): body]: the scope is rolled back when the body
    raises or the commit fails, and the exception goes on. *)
Definition atomic {A} (body : M A) : M A :=
  fun db =>
    let (_, db1) := begin db in
    match body db1 with
    | (Raise e, db2) => let (_, db3) := rollback db2 in (Raise e, db3)
    | (Ok a, db2) =>
        match commit db2 with
        | (Raise e, db3) => let (_, db4) := rollback db3 in (Raise e, db4)
        | (Ok _, db3) => (Ok a, db3)
        end
    end.

(** The insert loop of [_parse_taxdump], without its scope. *)
Definition insert_batches (taxa_info_list : list Dict) : M unit :=
  DbM.for_each (range 0 (length taxa_info_list) 500)
    (fun i => Taxa_insert_many (slice taxa_info_list i (i + 500))).

(** [nodes_file] and [names_file] are the texts of the two files. *)
Definition _parse_taxdump (nodes_file names_file : string) : M unit :=
  nodes_data <- DbM.lift (parse_nodes nodes_file) ;;
  names_data <- DbM.lift (parse_names names_file) ;;
  let taxa_info_list := merge_all nodes_data names_data in
  atomic (insert_batches taxa_info_list).

(** The dictionary built from one line of an accession file. *)
Definition accession_record (line : string) : result Dict :=
  let line_list := PyStr.split PyStr.TAB (PyStr.rstrip PyStr.LF line) in
  x0 <~ Res.getitem line_list 0;
  x2 <~ Res.getitem line_list 2;
  Ok ({[ "accession" := x0; "taxid" := x2 ]} : Dict).

(** The loop over the lines that follow the header, without its scope. *)
Definition create_sequences (lines : list string) : M unit :=
  DbM.for_each lines
    (fun line => data_dict <- DbM.lift (accession_record line) ;;
                 Sequence_create data_dict).

(** [acc2taxid] is the text of the file once decompressed;
    [f.readline()] drops its first line. *)
Definition _parse_accession2taxid (acc2taxid : string) : M unit :=
  atomic (create_sequences (tail (PyStr.readlines acc2taxid))).

End Loader.

(** A storage layer that accepts every write. *)
Definition never_fails : Store -> Write -> bool := fun _ _ => false.

(** ** Vocabulary of the statements *)

(** Successive calls of [_parse_taxdump] on one handle, each on its own
    pair of files; a call that raises leaves the handle to the next. *)
Definition taxa_loads (fails : Store -> Write -> bool)
    (calls : list (string * string)) (db : Db) : Db :=
  foldl (fun db call => (_parse_taxdump fails call.1 call.2 db).2) db calls.

(** The [ncbi_taxid] of every row of a table. *)
Definition taxids (table : list Row) : list (option string) :=
  (fun r => fields r !! "ncbi_taxid") <$> table.

(** A record holds a non-empty text under the key [k]. *)
Definition nonempty (k : string) (d : Dict) : Prop :=
  exists v, d !! k = Some v /\ v <> "".

(** The three fields that come from a node line are there and filled. *)
Definition has_node_fields (d : Dict) : Prop :=
  nonempty "ncbi_taxid" d /\ nonempty "parent_taxid" d /\ nonempty "lineage_level" d.

(** A name record has a filled taxon id and none of the keys that only
    a node record has. *)
Definition is_name_record (d : Dict) : Prop :=
  nonempty "ncbi_taxid" d /\ d !! "parent_taxid" = None /\ d !! "lineage_level" = None.

(** Column [i] of a tab-separated line. *)
Definition column (i : nat) (line : string) : string :=
  default "" (PyStr.split PyStr.TAB line !! i).

(** The Accession record of a data line. *)
Definition accession_of (line : string) : Dict :=
  {[ "accession" := column 0 line; "taxid" := column 2 line ]}.

(** The storage layer refuses nothing. *)
Definition reliable (fails : Store -> Write -> bool) : Prop :=
  forall s w, fails s w = false.

(** Texts of the examples. *)
Definition tab : string := String PyStr.TAB "".
Definition eol : string := String PyStr.LF "".

(** A dump line: its fields, each followed by tab, pipe, and separated
    from the next by a tab. *)
Definition dump_line (cells : list string) : string :=
  String.concat tab ((fun c => c +:+ tab +:+ "|") <$> cells).

(** A line of an accession file, without its line feed. *)
Definition tsv_line (cells : list string) : string := String.concat tab cells.

(** A computation leaves the stack of open scopes as it found it. *)
Definition keeps_savepoints {A} (c : M A) : Prop :=
  forall db, savepoints (c db).2 = savepoints db.

(** What [atomic fails body] returns on [db] when [body] keeps the open
    scopes: the handle is [db] again after an exception, and the tables
    of the body's handle otherwise. *)
Definition scope_outcome {A} (fails : Store -> Write -> bool)
    (body : M A) (db : Db) : result A * Db :=
  match body {| store := store db; savepoints := store db :: savepoints db |} with
  | (Raise e, _) => (Raise e, db)
  | (Ok a, db2) =>
      if fails (store db2) Commit then (Raise DatabaseError, db)
      else (Ok a, {| store := store db2; savepoints := savepoints db |})
  end.

(** The merge of the two parsed files: [taxa_info_list]. *)
Definition taxa_info_list_of (nodes_file names_file : string) : result (list Dict) :=
  nodes_data <~ parse_nodes nodes_file;
  names_data <~ parse_names names_file;
  Ok (merge_all nodes_data names_data).

(** A name line is kept. *)
Definition retained (line : string) : bool :=
  PyStr.contains "scientific name" line.

(** Two taxa in the node file; in the name file taxon 1 has a synonym
    only, so the first scientific name is that of taxon 2. *)
Definition misaligned_nodes : string :=
  PyStr.unlines [dump_line ["1"; "1"; "no rank"];
                 dump_line ["2"; "131567"; "superkingdom"]].

Definition misaligned_names : string :=
  PyStr.unlines [dump_line ["1"; "all"; ""; "synonym"];
                 dump_line ["2"; "Bacteria"; "Bacteria <bacteria>"; "scientific name"]].

(** The lines of the example of the specification. *)
Definition bacteria_node_line : string := dump_line ["9"; "1"; "superkingdom"].
Definition bacteria_name_line : string := dump_line ["9"; "Bacteria"; "scientific name"].

(** A disk that takes [n] rows in the [Sequence] table and then refuses
    every further [create]. *)
Definition full_after (n : nat) : Store -> Write -> bool :=
  fun s w =>
    match w with
    | Create _ => bool_decide (n <= length (Sequence s))
    | _ => false
    end.

(** The accession file of the example of the specification, and more
    data lines for it. *)
Definition accession_header : string :=
  tsv_line ["accession"; "accession.version"; "taxid"; "gi"].
Definition accession_AB012345 : string :=
  tsv_line ["AB012345"; "AB012345.1"; "9"; "123456"].
Definition accession_X55555 : string :=
  tsv_line ["X55555"; "X55555.2"; "9"; "777"].
Definition accession_short : string :=
  tsv_line ["Z99999"; "Z99999.1"].


(** The record of the example, and a handle on which one accession file
    has been loaded. *)
Definition bacteria : Dict :=
  {[ "ncbi_taxid" := "9"; "parent_taxid" := "1"; "tax_name" := "Bacteria";
     "lineage_level" := "superkingdom" ]}.

Definition first_accessions : string :=
  PyStr.unlines [accession_header; accession_AB012345].

Definition second_accessions : string :=
  PyStr.unlines [accession_header; accession_X55555; accession_AB012345].

Definition truncated_accessions : string :=
  PyStr.unlines [accession_header; accession_X55555; accession_short].

(** A node line cut after its second field. *)
Definition truncated_node_line : string := "2" +:+ tab +:+ "|" +:+ tab +:+ "131567".

Definition truncated_nodes : string :=
  PyStr.unlines [dump_line ["1"; "1"; "no rank"]; truncated_node_line].

Definition db_after_first_load : Db :=
  (_parse_accession2taxid (full_after 2) first_accessions fresh_db).2.

(** ** Vocabulary of the further properties *)

(** A text begins, or ends, with the character [c]. *)
Definition starts_with_char (c : ascii) (s : string) : Prop :=
  match s with
  | EmptyString => False
  | String a _ => a = c
  end.

Fixpoint ends_with_char (c : ascii) (s : string) : Prop :=
  match s with
  | EmptyString => False
  | String a EmptyString => a = c
  | String _ s' => ends_with_char c s'
  end.

(** A text made of [n] times the character [c]. *)
Fixpoint repeat_char (n : nat) (c : ascii) : string :=
  match n with
  | 0 => EmptyString
  | S n' => String c (repeat_char n' c)
  end.

(** How often the character [c] occurs in a text. *)
Fixpoint count_char (c : ascii) (s : string) : nat :=
  match s with
  | EmptyString => 0
  | String a s' => (if decide (a = c) then 1 else 0) + count_char c s'
  end.


(** A node record with the scientific name of a name record put in. *)
Definition with_name (nodes names : Dict) : Dict :=
  <[ "tax_name" := default "" (names !! "tax_name") ]> nodes.

(** A node record and a name record are of the same taxon. *)
Definition same_taxon (nodes names : Dict) : Prop :=
  exists i n, nodes !! "ncbi_taxid" = Some i /\
              names = {[ "ncbi_taxid" := i; "tax_name" := n ]}.

(** A disk that takes [n] rows in the [Taxa] table and then refuses
    every further [insert_many]. *)
Definition taxa_full_after (n : nat) : Store -> Write -> bool :=
  fun s w =>
    match w with
    | InsertMany _ => bool_decide (n <= length (Taxa s))
    | _ => false
    end.

(** Dump files of 501 taxa: one more than a batch. *)
Definition many_nodes : string :=
  PyStr.unlines (replicate 501 bacteria_node_line).
Definition many_names : string :=
  PyStr.unlines (replicate 501 bacteria_name_line).

(** A name line that has the marker and no pipe. *)
Definition name_line_without_pipe : string := "9 Bacteria scientific name".

(** A record holds under the key [k] a text without pipe that neither
    begins nor ends with a tab. *)
Definition clean_field (k : string) (d : Dict) : Prop :=
  exists v, d !! k = Some v /\
            PyStr.no_char PyStr.PIPE v /\
            ~ starts_with_char PyStr.TAB v /\
            ~ ends_with_char PyStr.TAB v.

(** A storage layer that takes every row and refuses the commit. *)
Definition refuses_commit : Store -> Write -> bool :=
  fun _ w => match w with Commit => true | _ => false end.

(** A storage layer that refuses every [insert_many]. *)
Definition refuses_inserts : Store -> Write -> bool :=
  fun _ w => match w with InsertMany _ => true | _ => false end.

(** A name file without any scientific name. *)
Definition synonyms_only : string :=
  PyStr.unlines [dump_line ["1"; "all"; ""; "synonym"]; "not a dump line"].

(** ** The command [create] *)

(** The model classes handed to [db.create_table]. *)
Inductive Model : Type :=
| TaxaModel
| SequenceModel.

(** The arguments of the command, [args]. *)
Record Args : Type := { input : string; dbname : string; dbtype : string }.

Section CreateDb.

Variable fails : Store -> Write -> bool.

(** The text the program gets from the file at a path; for a [.gz] file
    the text once decompressed. *)
Variable read_file : string -> string.

(** The calls on [db] that open, set up and close the database; they
    are the storage layer's. *)
Variable db_init : string -> M unit.
Variable db_connect : M unit.
Variable db_create_table : Model -> M unit.
Variable db_close : M unit.

Definition create_db (args : Args) : M unit :=
  _ <- db_init (dbname args +:+ ".sqlite") ;;
  _ <- db_connect ;;
  _ <- db_create_table TaxaModel ;;
  _ <- db_create_table SequenceModel ;;
  _ <- _parse_taxdump fails (read_file (input args +:+ "/nodes.dmp"))
                            (read_file (input args +:+ "/names.dmp")) ;;
  _ <- _parse_accession2taxid fails
         (read_file (input args +:+ "/nucl_est.accession2taxid.gz")) ;;
  _ <- _parse_accession2taxid fails
         (read_file (input args +:+ "/nucl_gb.accession2taxid.gz")) ;;
  _ <- _parse_accession2taxid fails
         (read_file (input args +:+ "/nucl_gss.accession2taxid.gz")) ;;
  _ <- _parse_accession2taxid fails
         (read_file (input args +:+ "/nucl_wgs.accession2taxid.gz")) ;;
  _ <- _parse_accession2taxid fails
         (read_file (input args +:+ "/prot.accession2taxid.gz")) ;;
  db_close.

(** The four calls before the loads. *)
Definition set_up (args : Args) : M unit :=
  _ <- db_init (dbname args +:+ ".sqlite") ;;
  _ <- db_connect ;;
  _ <- db_create_table TaxaModel ;;
  db_create_table SequenceModel.

End CreateDb.

(** The accession files of [create_db], in the order of its calls. *)
Definition accession_names : list string :=
  ["nucl_est.accession2taxid.gz"; "nucl_gb.accession2taxid.gz";
   "nucl_gss.accession2taxid.gz"; "nucl_wgs.accession2taxid.gz";
   "prot.accession2taxid.gz"].

(** The six load calls of [create_db], in order. *)
Definition load_calls (fails : Store -> Write -> bool) (read_file : string -> string)
    (args : Args) : list (M unit) :=
  _parse_taxdump fails (read_file (input args +:+ "/nodes.dmp"))
                       (read_file (input args +:+ "/names.dmp"))
  :: ((fun name => _parse_accession2taxid fails (read_file (input args +:+ "/" +:+ name)))
      <$> accession_names).

(** An accession file written as a header line and data lines. *)
Record AccessionFile : Type :=
  { header : string; data : list string; closed : bool }.

Definition text_of (f : AccessionFile) : string :=
  PyStr.file_text (header f :: data f) (closed f).

Definition well_formed (f : AccessionFile) : Prop :=
  PyStr.no_char PyStr.LF (header f) /\
  Forall (PyStr.no_char PyStr.LF) (data f) /\
  Forall (fun line => 3 <= length (PyStr.split PyStr.TAB line)) (data f).

(** A directory [in] with the dump files of the example, the accession
    file [prot] as given and the same small file for the other four. *)
Definition example_dir (prot : string) (path : string) : string :=
  if decide (path = "in/nodes.dmp") then bacteria_node_line +:+ eol
  else if decide (path = "in/names.dmp") then bacteria_name_line +:+ eol
  else if decide (path = "in/prot.accession2taxid.gz") then prot
  else first_accessions.

Definition example_args : Args :=
  {| input := "in"; dbname := "taxadb"; dbtype := "sqlite" |}.

(** Set-up and closing calls that return normally and leave the tables. *)
Definition quiet {A} (_ : A) : M unit := DbM.ret tt.

(** ** The md5 check *)

Module Md5.

(** The exceptions of [_md5_check]: a digest file without a word, and
    the failed [assert]. *)
Inductive Exn : Type :=
| IndexError
| AssertionError.

(** The characters [str.split()] takes for blanks, among the code
    points below 256: 9 to 13, 28 to 32, 133 and 160. *)
Definition isspace (c : ascii) : bool :=
  let n := nat_of_ascii c in
  (Nat.leb 9 n && Nat.leb n 13) || (Nat.leb 28 n && Nat.leb n 32)
  || Nat.eqb n 133 || Nat.eqb n 160.

(** [s.split()]: the words between runs of blanks. *)
Fixpoint split_blank (s : string) : list string :=
  match s with
  | EmptyString => []
  | String c s' =>
      if isspace c then split_blank s'
      else match s' with
           | EmptyString => [String c EmptyString]
           | String c' _ =>
               if isspace c' then String c EmptyString :: split_blank s'
               else match split_blank s' with
                    | [] => [String c EmptyString]
                    | w :: ws => String c w :: ws
                    end
           end
  end.

Fixpoint take_bytes (n : nat) (s : string) : string :=
  match n, s with
  | S n', String c s' => String c (take_bytes n' s')
  | _, _ => EmptyString
  end.

Fixpoint drop_bytes (n : nat) (s : string) : string :=
  match n, s with
  | S n', String _ s' => drop_bytes n' s'
  | _, _ => s
  end.

(** [f.read(n)] on what is left of a file: the bytes read and what is
    left after; a negative [n] reads to the end. *)
Definition read (n : Z) (rest : string) : string * string :=
  if (n <? 0)%Z then (rest, EmptyString)
  else (take_bytes (Z.to_nat n) rest, drop_bytes (Z.to_nat n) rest).

(** [for chunk in iter(lambda: f.read(block_size), b''):
    file_md5.update(chunk)].  The hash object is given by the bytes it
    was fed: successive updates amount to one update with their
    concatenation.  [None] when the fuel is used up before the loop
    ends. *)
Fixpoint update_chunks (fuel : nat) (block_size : Z) (rest : string)
    (file_md5 : string) : option string :=
  match fuel with
  | 0 => None
  | S fuel' =>
      let (chunk, rest') := read block_size rest in
      if decide (chunk = EmptyString) then Some file_md5
      else update_chunks fuel' block_size rest' (file_md5 +:+ chunk)
  end.

(** [f.readline()] on a file just opened. *)
Definition readline (text : string) : string :=
  default EmptyString (head (PyStr.readlines text)).

(** The default of [block_size]. *)
Definition default_block_size : Z := (256 * 128)%Z.

End Md5.

Section Md5Check.

(** The content of the file at a path. *)
Variable read_file : string -> string.

(** [hashlib.md5]: the hexadecimal digest of the bytes fed. *)
Variable md5_hexdigest : string -> string.

(** [fuel] bounds the number of chunks read. *)
Definition _md5_check_within (fuel : nat) (file : string) (block_size : Z)
    : option (Md5.Exn + unit) :=
  match Md5.split_blank (Md5.readline (read_file (file +:+ ".md5"))) !! 0 with
  | None => Some (inl Md5.IndexError)
  | Some md5 =>
      match Md5.update_chunks fuel block_size (read_file file) EmptyString with
      | None => None
      | Some file_md5 =>
          if decide (md5_hexdigest file_md5 = md5) then Some (inr tt)
          else Some (inl Md5.AssertionError)
      end
  end.

(** One chunk more than the file has bytes is always enough. *)
Definition _md5_check (file : string) (block_size : Z) : option (Md5.Exn + unit) :=
  _md5_check_within (S (String.length (read_file file))) file block_size.

End Md5Check.

(** The outcome of the comparison of a digest with the expected one. *)
Definition compared (digest expected : string) : option (Md5.Exn + unit) :=
  if decide (digest = expected) then Some (inr tt) else Some (inl Md5.AssertionError).

(** A text holds no blank. *)
Definition no_blank (s : string) : Prop :=
  Forall (fun c => Md5.isspace c = false) (list_ascii_of_string s).

(** A text holds blanks only. *)
Definition all_blank (s : string) : Prop :=
  Forall (fun c => Md5.isspace c = true) (list_ascii_of_string s).

(** A stand-in for the digest in the examples: the bytes themselves. *)
Definition plain_digest (s : string) : string := s.

(** A file [f] of five bytes and its digest file in the layout of
    [md5sum]. *)
Definition example_md5_dir (path : string) : string :=
  if decide (path = "f.md5") then "hello  f" +:+ eol
  else if decide (path = "f") then "hello"
  else if decide (path = "blank.md5") then "  " +:+ eol +:+ "hello  f" +:+ eol
  else "".

(** ** Facts about the string methods *)

Section StringFacts.

Import PyStr.

Lemma split_nonempty sep s : split sep s <> [].
Proof. destruct s as [|c s]; simpl; [done|]. case_decide; [done|]. by destruct (split sep s). Qed.

Lemma no_char_cons c a s : no_char c (String a s) <-> a <> c /\ no_char c s.
Proof.
  unfold no_char; simpl. rewrite not_elem_of_cons. split; intros [? ?]; split; congruence.
Qed.

Lemma readlines_line l rest :
  no_char LF l ->
  readlines (l +:+ String LF rest) = (l +:+ String LF "") :: readlines rest.
Proof.
  induction l as [|a l IH]; simpl; intros Hl.
  - done.
  - apply no_char_cons in Hl as [Ha Hl].
    rewrite decide_False by done. by rewrite IH.
Qed.

Lemma readlines_unlines ls :
  Forall (no_char LF) ls ->
  readlines (unlines ls) = (fun l => l +:+ String LF "") <$> ls.
Proof.
  induction 1 as [|l ls Hl _ IH]; simpl; [done|].
  by rewrite readlines_line, IH.
Qed.

Lemma readlines_unterminated l :
  no_char LF l -> readlines l = if decide (l = "") then [] else [l].
Proof.
  induction l as [|a l IH]; simpl; intros Hl; [done|].
  apply no_char_cons in Hl as [Ha Hl].
  rewrite decide_False by done. rewrite IH by done.
  by case_decide; subst.
Qed.

Lemma rstrip_line l : no_char LF l -> rstrip LF (l +:+ String LF "") = l.
Proof.
  induction l as [|a l IH]; simpl; intros Hl; [done|].
  apply no_char_cons in Hl as [Ha Hl]. rewrite IH by done.
  destruct l; [by rewrite decide_False|done].
Qed.

Lemma rstrip_no_char c l : no_char c l -> rstrip c l = l.
Proof.
  induction l as [|a l IH]; simpl; intros Hl; [done|].
  apply no_char_cons in Hl as [Ha Hl]. rewrite IH by done.
  destruct l; [by rewrite decide_False|done].
Qed.

Lemma file_text_closed ls : file_text ls true = unlines ls.
Proof.
  induction ls as [|l ls IH]; simpl; [done|].
  destruct ls; [done|]. by rewrite IH.
Qed.

(** Read back, the lines of a text are the lines it was written from,
    up to their line feeds. *)
Lemma readlines_file_text ls closed :
  Forall (no_char LF) ls -> Forall (fun l => l <> "") ls ->
  rstrip LF <$> readlines (file_text ls closed) = ls.
Proof.
  induction ls as [|l ls IH]; intros Hls Hne; [done|].
  apply Forall_cons in Hls as [Hl Hls]. apply Forall_cons in Hne as [Hl' Hne].
  destruct ls as [|l2 ls].
  - simpl. destruct closed.
    + rewrite readlines_line by done. simpl. by rewrite rstrip_line.
    + rewrite readlines_unterminated, decide_False by done. simpl.
      by rewrite rstrip_no_char.
  - change (file_text (l :: l2 :: ls) closed)
      with (l +:+ String LF (file_text (l2 :: ls) closed)).
    rewrite readlines_line by done. rewrite fmap_cons, IH by done.
    by rewrite rstrip_line.
Qed.

Lemma split_empty sep : split sep "" = [""].
Proof. done. Qed.

End StringFacts.

(** ** Facts about [range] and slices *)

Section ListFacts.

Context {A : Type}.
Implicit Types l : list A.

Lemma range_reaches n step : 0 < step -> n <= (n + step - 1) / step * step.
Proof.
  intros Hstep.
  pose proof (Nat.div_mod_eq (n + step - 1) step) as Hdiv.
  pose proof (Nat.mod_upper_bound (n + step - 1) step) as Hmod.
  lia.
Qed.


Lemma concat_slices_take l step m :
  concat ((fun i => slice l i (i + step)) <$> ((fun k => 0 + k * step) <$> seq 0 m))
  = take (m * step) l.
Proof.
  induction m as [|m IH]; [done|].
  rewrite seq_S, !fmap_app, concat_app, IH. simpl.
  unfold slice. rewrite app_nil_r.
  replace (m * step + step - m * step) with step by lia.
  rewrite take_take_drop. f_equal. lia.
Qed.

Lemma slices_partition l step :
  0 < step ->
  concat ((fun i => slice l i (i + step)) <$> range 0 (length l) step) = l.
Proof.
  intros Hstep. unfold range. rewrite concat_slices_take.
  apply take_ge. rewrite Nat.sub_0_r. by apply range_reaches.
Qed.


End ListFacts.

(** ** Facts about the tables *)

Section StoreFacts.

Lemma append_rows_app table a b :
  append_rows table (a ++ b) = append_rows (append_rows table a) b.
Proof. revert table. induction a as [|d a IH]; intros table; simpl; [done|apply IH]. Qed.

Lemma append_rows_extends table rows :
  exists new, append_rows table rows = table ++ new /\ fields <$> new = rows.
Proof.
  revert table. induction rows as [|d rows IH]; intros table; simpl.
  - exists []. by rewrite app_nil_r.
  - destruct (IH (table ++ [{| primary := next_primary table; fields := d |}]))
      as (new & -> & Hnew).
    eexists (_ :: new). rewrite <- app_assoc. simpl. split; [done|].
    by f_equal.
Qed.

Lemma fields_append_rows table rows :
  fields <$> append_rows table rows = (fields <$> table) ++ rows.
Proof.
  destruct (append_rows_extends table rows) as (new & -> & <-).
  by rewrite fmap_app.
Qed.

Lemma length_append_rows table rows :
  length (append_rows table rows) = length table + length rows.
Proof.
  rewrite <- (length_fmap fields), fields_append_rows, length_app.
  by rewrite length_fmap.
Qed.

Lemma le_max_primary x (keys : list nat) : x ∈ keys -> x <= foldr Nat.max 0 keys.
Proof.
  induction 1 as [x keys|x y keys _ IH]; simpl; lia.
Qed.

Lemma next_primary_fresh table : next_primary table ∉ primary <$> table.
Proof.
  intros Hin%le_max_primary. unfold next_primary in Hin. lia.
Qed.

Lemma append_rows_NoDup table rows :
  NoDup (primary <$> table) -> NoDup (primary <$> append_rows table rows).
Proof.
  revert table. induction rows as [|d rows IH]; intros table Hnd; simpl; [done|].
  apply IH. rewrite fmap_app. simpl.
  apply NoDup_app. split_and!; [done| |apply NoDup_singleton].
  intros x Hx ->%list_elem_of_singleton. by apply next_primary_fresh in Hx.
Qed.

End StoreFacts.

(** ** Facts about the transactional scope and the loops *)

Create HintDb scope discriminated.

Section LoaderFacts.

Variable fails : Store -> Write -> bool.

Lemma ret_keeps {A} (a : A) : keeps_savepoints (DbM.ret a).
Proof. by intros db. Qed.

Lemma lift_keeps {A} (r : result A) : keeps_savepoints (DbM.lift r).
Proof. by intros db. Qed.

Lemma bind_keeps {A B} (c : M A) (k : A -> M B) :
  keeps_savepoints c -> (forall a, keeps_savepoints (k a)) ->
  keeps_savepoints (DbM.bind c k).
Proof.
  intros Hc Hk db. unfold DbM.bind.
  specialize (Hc db). destruct (c db) as [[a|e] db']; simpl in *; [|done].
  by rewrite Hk.
Qed.

Lemma for_each_keeps {A} (xs : list A) (body : A -> M unit) :
  (forall x, keeps_savepoints (body x)) -> keeps_savepoints (DbM.for_each xs body).
Proof.
  intros Hbody. induction xs as [|x xs IH]; simpl.
  - apply ret_keeps.
  - apply bind_keeps; auto.
Qed.

Lemma Taxa_insert_many_keeps rows : keeps_savepoints (Taxa_insert_many fails rows).
Proof. intros db. unfold Taxa_insert_many. by destruct (fails _ _). Qed.

Lemma Sequence_create_keeps row : keeps_savepoints (Sequence_create fails row).
Proof. intros db. unfold Sequence_create. by destruct (fails _ _). Qed.

Hint Resolve ret_keeps lift_keeps bind_keeps for_each_keeps
  Taxa_insert_many_keeps Sequence_create_keeps : scope.

Lemma insert_batches_keeps l : keeps_savepoints (insert_batches fails l).
Proof. unfold insert_batches. auto with scope. Qed.

Lemma create_sequences_keeps lines : keeps_savepoints (create_sequences fails lines).
Proof. unfold create_sequences. auto 6 with scope. Qed.

(** The scope commits the tables of its body or restores the handle. *)
Lemma atomic_outcome {A} (body : M A) db :
  keeps_savepoints body -> atomic fails body db = scope_outcome fails body db.
Proof.
  intros Hbody. unfold atomic, scope_outcome, begin, commit, rollback.
  match goal with |- context [body ?d] => specialize (Hbody d) end.
  destruct (body _) as [[a|e] db2]; simpl in *.
  - destruct (fails (store db2) Commit); [|by rewrite Hbody].
    rewrite Hbody. by destruct db.
  - rewrite Hbody. by destruct db.
Qed.

Lemma atomic_raise_restores {A} (body : M A) db e db' :
  keeps_savepoints body -> atomic fails body db = (Raise e, db') -> db' = db.
Proof.
  intros Hbody. rewrite atomic_outcome by done. unfold scope_outcome.
  destruct (body _) as [[a|e'] db2]; [destruct (fails _ _)|]; congruence.
Qed.

(** A loop raises as soon as the record of one of its lines cannot be
    built, whatever the store did before. *)
Lemma create_sequences_raises lines line db :
  line ∈ lines -> is_raise (accession_record line) = true ->
  is_raise (create_sequences fails lines db).1 = true.
Proof.
  intros Hin Hbad. revert db.
  induction Hin as [line lines|line line' lines _ IH]; intros db;
    unfold create_sequences in *; simpl; unfold DbM.bind at 1.
  - unfold DbM.bind, DbM.lift. by destruct (accession_record line).
  - destruct (DbM.bind _ _ db) as [[[]|e] db']; [by apply IH|done].
Qed.

(** When the insert loop ends without an exception every batch is in
    the table, in order. *)
Lemma for_each_insert_ok {A} (xs : list A) (f : A -> list Dict) db db' :
  DbM.for_each xs (fun x => Taxa_insert_many fails (f x)) db = (Ok tt, db') ->
  Taxa (store db') = append_rows (Taxa (store db)) (concat (f <$> xs)) /\
  Sequence (store db') = Sequence (store db).
Proof.
  revert db. induction xs as [|x xs IH]; intros db; simpl.
  - by intros [= <-].
  - unfold DbM.bind, Taxa_insert_many at 1.
    destruct (fails _ _); [done|].
    intros [-> ->]%IH. simpl. by rewrite append_rows_app.
Qed.

Lemma for_each_app {A} (xs ys : list A) (body : A -> M unit) db :
  DbM.for_each (xs ++ ys) body db
  = DbM.bind (DbM.for_each xs body) (fun _ => DbM.for_each ys body) db.
Proof.
  revert db. induction xs as [|x xs IH]; intros db; simpl; [done|].
  unfold DbM.bind in *.
  destruct (body x db) as [[[]|e] db1]; [|done].
  by rewrite IH.
Qed.

Section Reliable.

Hypothesis Hreliable : reliable fails.

Lemma insert_batches_reliable {A} (xs : list A) (f : A -> list Dict) db :
  DbM.for_each xs (fun x => Taxa_insert_many fails (f x)) db
  = (Ok tt, {| store := {| Taxa := append_rows (Taxa (store db)) (concat (f <$> xs));
                           Sequence := Sequence (store db) |};
               savepoints := savepoints db |}).
Proof.
  revert db. induction xs as [|x xs IH]; intros db; simpl.
  - by destruct db as [[] ?].
  - unfold DbM.bind, Taxa_insert_many at 1. rewrite Hreliable, IH. simpl.
    by rewrite append_rows_app.
Qed.

Lemma create_sequences_reliable (g : string -> Dict) lines db :
  Forall (fun line => accession_record line = Ok (g line)) lines ->
  create_sequences fails lines db
  = (Ok tt, {| store := {| Taxa := Taxa (store db);
                           Sequence := append_rows (Sequence (store db)) (g <$> lines) |};
               savepoints := savepoints db |}).
Proof.
  intros Hlines. revert db.
  induction Hlines as [|line lines Hd _ IH]; intros db.
  - by destruct db as [[] ?].
  - unfold create_sequences in *. simpl.
    unfold DbM.bind at 1. unfold DbM.bind at 1. unfold DbM.lift.
    rewrite Hd. unfold Sequence_create at 1. rewrite Hreliable.
    by rewrite IH.
Qed.

Lemma parse_taxdump_reliable nodes_file names_file taxa_info_list db :
  taxa_info_list_of nodes_file names_file = Ok taxa_info_list ->
  _parse_taxdump fails nodes_file names_file db
  = (Ok tt, {| store := {| Taxa := append_rows (Taxa (store db)) taxa_info_list;
                           Sequence := Sequence (store db) |};
               savepoints := savepoints db |}).
Proof.
  unfold taxa_info_list_of, _parse_taxdump, DbM.bind, DbM.lift.
  destruct (parse_nodes nodes_file) as [nodes_data|]; simpl; [|done].
  destruct (parse_names names_file) as [names_data|]; simpl; [|done].
  intros [= <-]. rewrite atomic_outcome by apply insert_batches_keeps.
  unfold scope_outcome, insert_batches.
  rewrite insert_batches_reliable, Hreliable. simpl.
  by rewrite slices_partition by lia.
Qed.

End Reliable.

End LoaderFacts.

(** ** Facts about the parsers and the merge *)

Section ParserFacts.

Lemma getitem_raise {A} (l : list A) i e :
  Res.getitem l i = Raise e -> e = IndexError /\ length l <= i.
Proof.
  unfold Res.getitem. destruct (l !! i) eqn:Hi; [done|].
  intros [= <-]. split; [done|]. by apply lookup_ge_None.
Qed.

Lemma getitem_short {A} (l : list A) i :
  length l <= i -> Res.getitem l i = Raise IndexError.
Proof. intros Hi. unfold Res.getitem. by rewrite (lookup_ge_None_2 l i Hi). Qed.

Lemma node_record_short line :
  length (PyStr.split PyStr.PIPE line) < 3 -> node_record line = Raise IndexError.
Proof.
  unfold node_record. cbv zeta.
  destruct (PyStr.split PyStr.PIPE line) as [|x0 [|x1 [|x2 rest]]]; simpl; by try lia.
Qed.

Lemma node_record_raise line e : node_record line = Raise e -> e = IndexError.
Proof.
  unfold node_record. cbv zeta.
  destruct (PyStr.split PyStr.PIPE line) as [|x0 [|x1 [|x2 rest]]]; simpl; congruence.
Qed.

Lemma collect_raises {A B} (f : A -> result (option B)) e0 x xs :
  (forall y e, f y = Raise e -> e = e0) ->
  x ∈ xs -> f x = Raise e0 -> Res.collect f xs = Raise e0.
Proof.
  intros Hall Hin Hx.
  induction Hin as [x xs|x y xs _ IH]; simpl.
  - by rewrite Hx.
  - destruct (f y) as [o|e] eqn:Hy; simpl.
    + by rewrite IH.
    + by rewrite (Hall _ _ Hy).
Qed.

Lemma parse_nodes_short nodes_file line :
  line ∈ PyStr.readlines nodes_file ->
  length (PyStr.split PyStr.PIPE line) < 3 ->
  parse_nodes nodes_file = Raise IndexError.
Proof.
  intros Hin Hshort. unfold parse_nodes.
  apply collect_raises with (x := line); [|done|by rewrite node_record_short].
  intros y e. destruct (node_record y) eqn:Hy; simpl; [done|].
  intros [= <-]. by apply node_record_raise in Hy.
Qed.

Lemma parse_nodes_length nodes_file nodes_data :
  parse_nodes nodes_file = Ok nodes_data ->
  length nodes_data = length (PyStr.readlines nodes_file).
Proof.
  unfold parse_nodes. generalize (PyStr.readlines nodes_file) as lines.
  intros lines. revert nodes_data.
  induction lines as [|line lines IH]; intros nodes_data; simpl.
  - by intros [= <-].
  - destruct (node_record line); simpl; [|done].
    destruct (Res.collect _ lines) as [rest|]; simpl; [|done].
    intros [= <-]. simpl. f_equal. by apply IH.
Qed.

Lemma parse_names_length names_file names_data :
  parse_names names_file = Ok names_data ->
  length names_data = length (filter (fun l => retained l = true) (PyStr.readlines names_file)).
Proof.
  unfold parse_names. generalize (PyStr.readlines names_file) as lines.
  intros lines. revert names_data.
  induction lines as [|line lines IH]; intros names_data; simpl.
  - by intros [= <-].
  - rewrite filter_cons. unfold name_record at 1.
    destruct (decide (retained line = true)) as [Hkept|Hkept].
    + unfold retained in Hkept. rewrite Hkept. cbv zeta.
      destruct (Res.getitem _ 0); simpl; [|done].
      destruct (Res.getitem _ 1); simpl; [|done].
      destruct (Res.collect _ lines) as [rest|]; simpl; [|done].
      intros [= <-]. simpl. f_equal. by apply IH.
    + apply not_true_is_false in Hkept. unfold retained in Hkept. rewrite Hkept.
      simpl. destruct (Res.collect _ lines) as [rest|]; simpl; [|done].
      intros [= <-]. by apply IH.
Qed.

(** The records the two loops build have the keys of their dictionary
    displays. *)
Lemma node_record_keys line d :
  node_record line = Ok d ->
  exists x0 x1 x2,
    PyStr.split PyStr.PIPE line !! 0 = Some x0 /\
    PyStr.split PyStr.PIPE line !! 1 = Some x1 /\
    PyStr.split PyStr.PIPE line !! 2 = Some x2 /\
    d !! "ncbi_taxid" = Some (PyStr.strip PyStr.TAB x0) /\
    d !! "parent_taxid" = Some (PyStr.strip PyStr.TAB x1) /\
    d !! "tax_name" = Some "" /\
    d !! "lineage_level" = Some (PyStr.strip PyStr.TAB x2).
Proof.
  unfold node_record. cbv zeta.
  destruct (PyStr.split PyStr.PIPE line) as [|x0 [|x1 [|x2 rest]]]; simpl; try done.
  intros [= <-]. exists x0, x1, x2. by split_and!.
Qed.

Lemma name_record_keys line d :
  name_record line = Ok (Some d) ->
  d !! "parent_taxid" = None /\ d !! "lineage_level" = None /\
  exists x0 x1,
    PyStr.split PyStr.PIPE line !! 0 = Some x0 /\
    PyStr.split PyStr.PIPE line !! 1 = Some x1 /\
    d !! "ncbi_taxid" = Some (PyStr.strip PyStr.TAB x0) /\
    d !! "tax_name" = Some (PyStr.strip PyStr.TAB x1).
Proof.
  unfold name_record. destruct (PyStr.contains _ line); [|done]. cbv zeta.
  destruct (PyStr.split PyStr.PIPE line) as [|x0 [|x1 rest]]; simpl; try done.
  intros [= <-]. split_and!; try done. by exists x0, x1.
Qed.

Lemma length_merge_all nodes_data names_data :
  length (merge_all nodes_data names_data)
  = min (length nodes_data) (length names_data).
Proof.
  revert names_data.
  induction nodes_data as [|nodes nodes_data IH]; intros [|names names_data];
    simpl; auto.
Qed.

(** A key of the name record wins over the node record's. *)
Lemma merge_lookup_names nodes names k v :
  names !! k = Some v -> merge nodes names !! k = Some v.
Proof. intros Hk. unfold merge. by apply lookup_union_Some_l. Qed.

(** A key the name record lacks keeps the node record's value. *)
Lemma merge_lookup_nodes nodes names k :
  names !! k = None -> merge nodes names !! k = nodes !! k.
Proof. intros Hk. unfold merge. by apply lookup_union_r. Qed.

Lemma merge_has_node_fields nodes names :
  has_node_fields nodes -> is_name_record names ->
  has_node_fields (merge nodes names).
Proof.
  intros (_ & (p & Hp & Hp') & (r & Hr & Hr')) ((i & Hi & Hi') & Hnp & Hnr).
  split_and!.
  - exists i. split; [by apply merge_lookup_names|done].
  - exists p. split; [by rewrite merge_lookup_nodes|done].
  - exists r. split; [by rewrite merge_lookup_nodes|done].
Qed.

Lemma merge_all_has_node_fields nodes_data names_data :
  Forall has_node_fields nodes_data -> Forall is_name_record names_data ->
  Forall has_node_fields (merge_all nodes_data names_data).
Proof.
  intros Hnodes. revert names_data.
  induction Hnodes as [|nodes nodes_data Hn _ IH]; intros names_data Hnames; simpl.
  - constructor.
  - destruct Hnames as [|names names_data Hm Hnames]; constructor.
    + by apply merge_has_node_fields.
    + by apply IH.
Qed.

End ParserFacts.

(** ** The Taxon Merger *)

(** C1: the merge lets the name record overwrite the node record on every
    key they share, and they share [ncbi_taxid] as well as [tax_name].  On
    the misaligned files, where the first node is taxon 1 and the first
    scientific name is that of taxon 2, the first node record has taxon id
    1 and the only merged record has taxon id 2 with the parent and rank
    of taxon 1; this is also the row that reaches the table. *)
Theorem C1_merged_taxid_is_the_name_records :
  (exists node2, parse_nodes misaligned_nodes
     = Ok [ ({[ "ncbi_taxid" := "1"; "parent_taxid" := "1"; "tax_name" := "";
               "lineage_level" := "no rank" ]} : Dict); node2 ]) /\
  parse_names misaligned_names
    = Ok [ ({[ "ncbi_taxid" := "2"; "tax_name" := "Bacteria" ]} : Dict) ] /\
  taxa_info_list_of misaligned_nodes misaligned_names
    = Ok [ ({[ "ncbi_taxid" := "2"; "parent_taxid" := "1"; "tax_name" := "Bacteria";
              "lineage_level" := "no rank" ]} : Dict) ] /\
  fields <$> Taxa (store (_parse_taxdump never_fails misaligned_nodes misaligned_names fresh_db).2)
    = [ ({[ "ncbi_taxid" := "2"; "parent_taxid" := "1"; "tax_name" := "Bacteria";
           "lineage_level" := "no rank" ]} : Dict) ].
Proof.
  split_and!.
  - eexists. vm_compute. reflexivity.
  - vm_compute. reflexivity.
  - vm_compute. reflexivity.
  - vm_compute. reflexivity.
Qed.

(** C2: the merger yields as many records as the shorter of its two
    input lists, hence at most [min m n]; when both lists have [N]
    records, node records with filled taxon id, parent and rank and name
    records with a filled taxon id, it yields exactly [N] records, each
    with filled taxon id, parent and rank. *)
Theorem C2_merger_length (nodes_data names_data : list Dict) :
  length (merge_all nodes_data names_data)
    = min (length nodes_data) (length names_data) /\
  length (merge_all nodes_data names_data)
    <= min (length nodes_data) (length names_data) /\
  forall N,
    length nodes_data = N -> length names_data = N ->
    Forall has_node_fields nodes_data -> Forall is_name_record names_data ->
    length (merge_all nodes_data names_data) = N /\
    Forall has_node_fields (merge_all nodes_data names_data).
Proof.
  pose proof (length_merge_all nodes_data names_data) as Hlen.
  split_and!; [done|lia|].
  intros N Hn Hm Hnodes Hnames. split; [lia|].
  by apply merge_all_has_node_fields.
Qed.

Lemma C2_merger_length_witness :
  length (merge_all
    [ ({[ "ncbi_taxid" := "9"; "parent_taxid" := "1"; "tax_name" := "";
          "lineage_level" := "superkingdom" ]} : Dict) ]
    [ ({[ "ncbi_taxid" := "9"; "tax_name" := "Bacteria" ]} : Dict) ]) = 1 /\
  Forall has_node_fields (merge_all
    [ ({[ "ncbi_taxid" := "9"; "parent_taxid" := "1"; "tax_name" := "";
          "lineage_level" := "superkingdom" ]} : Dict) ]
    [ ({[ "ncbi_taxid" := "9"; "tax_name" := "Bacteria" ]} : Dict) ]).
Proof.
  apply (C2_merger_length
    [ ({[ "ncbi_taxid" := "9"; "parent_taxid" := "1"; "tax_name" := "";
          "lineage_level" := "superkingdom" ]} : Dict) ]
    [ ({[ "ncbi_taxid" := "9"; "tax_name" := "Bacteria" ]} : Dict) ]).
  - reflexivity.
  - reflexivity.
  - constructor; [|constructor].
    split_and!; eexists; (split; [vm_compute; reflexivity|discriminate]).
  - constructor; [|constructor].
    split_and!; [eexists; (split; [vm_compute; reflexivity|discriminate])|..];
      vm_compute; reflexivity.
Defined.

(** C8: the node line and the name line of the example are parsed, the
    name line being kept for its marker, and merged into the one record
    with taxon id 9, parent 1, rank superkingdom and name Bacteria; the
    same holds when each line ends in a line feed, as in a file. *)
Theorem C8_bacteria_example :
  PyStr.split PyStr.PIPE bacteria_node_line
    = ["9" +:+ tab; tab +:+ "1" +:+ tab; tab +:+ "superkingdom" +:+ tab; ""] /\
  retained bacteria_name_line = true /\
  taxa_info_list_of bacteria_node_line bacteria_name_line
    = Ok [ ({[ "ncbi_taxid" := "9"; "parent_taxid" := "1"; "tax_name" := "Bacteria";
              "lineage_level" := "superkingdom" ]} : Dict) ] /\
  taxa_info_list_of (bacteria_node_line +:+ eol) (bacteria_name_line +:+ eol)
    = Ok [ ({[ "ncbi_taxid" := "9"; "parent_taxid" := "1"; "tax_name" := "Bacteria";
              "lineage_level" := "superkingdom" ]} : Dict) ].
Proof.
  split_and!; vm_compute; reflexivity.
Qed.

(** ** The Accession Stream Parser *)

Section AccessionFacts.

Import PyStr.

Lemma accession_record_columns line :
  3 <= length (split TAB (rstrip LF line)) ->
  accession_record line = Ok (accession_of (rstrip LF line)).
Proof.
  intros Hcols. unfold accession_record, accession_of, column. cbv zeta.
  destruct (split TAB (rstrip LF line)) as [|x0 [|x1 [|x2 rest]]];
    simpl in *; by try lia.
Qed.

Lemma accession_record_short line :
  length (split TAB (rstrip LF line)) < 3 ->
  accession_record line = Raise IndexError.
Proof.
  unfold accession_record. cbv zeta. intros Hcols.
  pose proof (split_nonempty TAB (rstrip LF line)) as Hne.
  destruct (split TAB (rstrip LF line)) as [|x0 [|x1 [|x2 rest]]];
    simpl in *; by try lia.
Qed.

Lemma three_columns_nonempty line : 3 <= length (split TAB line) -> line <> "".
Proof. intros Hcols ->. rewrite split_empty in Hcols. simpl in Hcols. lia. Qed.

(** The lines the loop sees are the data lines, up to their line feeds. *)
Lemma data_lines header data closed :
  no_char LF header -> Forall (no_char LF) data -> Forall (fun l => l <> "") data ->
  rstrip LF <$> tail (readlines (file_text (header :: data) closed)) = data.
Proof.
  intros Hheader Hdata Hne. destruct data as [|l data].
  - simpl. destruct closed.
    + by rewrite readlines_line.
    + rewrite readlines_unterminated by done. by case_decide.
  - change (file_text (header :: l :: data) closed)
      with (header +:+ String LF (file_text (l :: data) closed)).
    rewrite readlines_line by done. cbn [tail].
    by apply readlines_file_text.
Qed.

End AccessionFacts.



(** C10: for a file that is empty, or holds a header line only, with or
    without its line feed, the call returns normally when the storage
    layer accepts the commit, and the handle is as before: no row is
    added to either table. *)
Theorem C10_header_only_file
    (fails : Store -> Write -> bool) (header : string) (db : Db) :
  PyStr.no_char PyStr.LF header ->
  fails (store db) Commit = false ->
  _parse_accession2taxid fails "" db = (Ok tt, db) /\
  _parse_accession2taxid fails header db = (Ok tt, db) /\
  _parse_accession2taxid fails (header +:+ eol) db = (Ok tt, db).
Proof.
  intros Hheader Hcommit.
  assert (Hempty : atomic fails (create_sequences fails []) db = (Ok tt, db)).
  { rewrite atomic_outcome by apply create_sequences_keeps.
    unfold scope_outcome. simpl. rewrite Hcommit. by destruct db. }
  unfold _parse_accession2taxid. split_and!.
  - exact Hempty.
  - rewrite readlines_unterminated by done. by case_decide.
  - unfold eol. by rewrite readlines_line.
Qed.

Lemma C10_header_only_file_witness :
  _parse_accession2taxid never_fails "" fresh_db = (Ok tt, fresh_db) /\
  _parse_accession2taxid never_fails accession_header fresh_db = (Ok tt, fresh_db) /\
  _parse_accession2taxid never_fails (accession_header +:+ eol) fresh_db = (Ok tt, fresh_db).
Proof.
  apply (C10_header_only_file never_fails accession_header fresh_db).
  - vm_compute. intros Hin. repeat (apply elem_of_cons in Hin as [Hin|Hin]; [discriminate|]).
    by apply elem_of_nil in Hin.
  - reflexivity.
Defined.

(** ** The Bulk Loader *)

Section BatchFacts.



(** A call of [_parse_taxdump] adds rows to [Taxa] or none at all,
    whatever the storage layer does. *)
Lemma parse_taxdump_appends fails nodes_file names_file db :
  exists rows,
    Taxa (store (_parse_taxdump fails nodes_file names_file db).2)
    = append_rows (Taxa (store db)) rows.
Proof.
  unfold _parse_taxdump, DbM.bind, DbM.lift.
  destruct (parse_nodes nodes_file) as [nodes_data|]; [|by exists []].
  destruct (parse_names names_file) as [names_data|]; [|by exists []].
  rewrite atomic_outcome by apply insert_batches_keeps.
  unfold scope_outcome, insert_batches.
  destruct (DbM.for_each _ _ _) as [[[]|e] db2] eqn:Hloop; [|by exists []].
  destruct (fails (store db2) Commit); [by exists []|].
  apply for_each_insert_ok in Hloop as [Hrows _]. simpl. rewrite Hrows.
  by eexists.
Qed.

Lemma taxa_loads_NoDup fails calls db :
  NoDup (primary <$> Taxa (store db)) ->
  NoDup (primary <$> Taxa (store (taxa_loads fails calls db))).
Proof.
  revert db. induction calls as [|[nodes_file names_file] calls IH];
    intros db Hdb; simpl; [done|].
  apply IH.
  destruct (parse_taxdump_appends fails nodes_file names_file db) as [rows ->].
  by apply append_rows_NoDup.
Qed.

End BatchFacts.



(** C3, counterexample: loading the files of the example twice on a
    storage layer that refuses nothing, the second call returns normally
    and the table then holds two rows with taxon id 9. *)
Lemma C3_second_load_duplicates :
  (_parse_taxdump never_fails bacteria_node_line bacteria_name_line
     (_parse_taxdump never_fails bacteria_node_line bacteria_name_line fresh_db).2).1
    = Ok tt /\
  ~ NoDup (taxids (Taxa (store
      (taxa_loads never_fails
         [(bacteria_node_line, bacteria_name_line);
          (bacteria_node_line, bacteria_name_line)] fresh_db)))).
Proof.
  split; [vm_compute; reflexivity|].
  assert (Hrows : taxids (Taxa (store
      (taxa_loads never_fails
         [(bacteria_node_line, bacteria_name_line);
          (bacteria_node_line, bacteria_name_line)] fresh_db))) = [Some "9"; Some "9"])
    by (vm_compute; reflexivity).
  rewrite Hrows. intros Hnd. apply NoDup_cons in Hnd as [Hnotin _].
  apply Hnotin. left.
Qed.

(** C3, as the code has it: the key of [Taxa] is the [primary] field the
    store assigns, and it is that field which stays unique over any
    sequence of load calls, whatever the storage layer refuses; the taxon
    id is no key, so a second load of the same files is not rejected on
    its account: when the storage layer refuses nothing, two loads of
    files that merge into the records [l] leave every record of [l] in
    the table twice. *)
Theorem C3_primary_is_the_unique_key
    (fails : Store -> Write -> bool) (calls : list (string * string)) (db : Db) :
  NoDup (primary <$> Taxa (store db)) ->
  NoDup (primary <$> Taxa (store (taxa_loads fails calls db))) /\
  forall nodes_file names_file l,
    reliable fails ->
    taxa_info_list_of nodes_file names_file = Ok l ->
    fields <$> Taxa (store
      (taxa_loads fails [(nodes_file, names_file); (nodes_file, names_file)] db))
    = (fields <$> Taxa (store db)) ++ l ++ l.
Proof.
  intros Hdb. split; [by apply taxa_loads_NoDup|].
  intros nodes_file names_file l Hreliable Hl. simpl.
  rewrite !(parse_taxdump_reliable fails Hreliable _ _ l) by done. simpl.
  by rewrite !fields_append_rows, <- app_assoc.
Qed.

Lemma C3_primary_is_the_unique_key_witness :
  NoDup (primary <$> Taxa (store
    (taxa_loads never_fails
       [(bacteria_node_line, bacteria_name_line);
        (bacteria_node_line, bacteria_name_line)] fresh_db))) /\
  fields <$> Taxa (store
    (taxa_loads never_fails
       [(bacteria_node_line, bacteria_name_line);
        (bacteria_node_line, bacteria_name_line)] fresh_db))
  = [bacteria; bacteria].
Proof.
  destruct (C3_primary_is_the_unique_key never_fails
              [(bacteria_node_line, bacteria_name_line);
               (bacteria_node_line, bacteria_name_line)] fresh_db) as [Hkeys Htwice].
  - simpl. constructor.
  - split; [exact Hkeys|].
    apply (Htwice bacteria_node_line bacteria_name_line [bacteria]).
    + intros s w. reflexivity.
    + vm_compute. reflexivity.
Defined.

(** C7: when a call of [_parse_accession2taxid] raises, for a storage
    failure or any other reason and at whatever point, the handle is the
    one the call started with: no row of that call is left, and the rows
    of both tables that were there before, those of earlier calls, are
    all there. *)
Theorem C7_failed_call_leaves_no_row
    (fails : Store -> Write -> bool) (acc2taxid : string) (db db' : Db) (e : Exn) :
  _parse_accession2taxid fails acc2taxid db = (Raise e, db') ->
  db' = db /\
  Sequence (store db') = Sequence (store db) /\
  Taxa (store db') = Taxa (store db).
Proof.
  intros Hrun. unfold _parse_accession2taxid in Hrun.
  apply atomic_raise_restores in Hrun; [|apply create_sequences_keeps].
  by subst.
Qed.

(** The second file fails on its second line, after one row was written
    in the scope. *)
Example second_load_fails_midway :
  (fields <$> Sequence (store db_after_first_load)
     = [accession_of accession_AB012345]) /\
  (let r := create_sequences (full_after 2)
              (tail (PyStr.readlines second_accessions))
              {| store := store db_after_first_load;
                 savepoints := [store db_after_first_load] |} in
   r.1 = Raise DatabaseError /\
   fields <$> Sequence (store r.2)
     = [accession_of accession_AB012345; accession_of accession_X55555]).
Proof. split; [|cbv zeta; split]; vm_compute; reflexivity. Qed.

Lemma C7_failed_call_leaves_no_row_witness :
  (_parse_accession2taxid (full_after 2) second_accessions db_after_first_load).2
    = db_after_first_load /\
  fields <$> Sequence (store
    (_parse_accession2taxid (full_after 2) second_accessions db_after_first_load).2)
    = [accession_of accession_AB012345].
Proof.
  destruct (C7_failed_call_leaves_no_row (full_after 2) second_accessions
              db_after_first_load
              (_parse_accession2taxid (full_after 2) second_accessions db_after_first_load).2
              DatabaseError) as (Hsame & Hrows & _).
  - vm_compute. reflexivity.
  - split; [exact Hsame|]. rewrite Hrows. vm_compute. reflexivity.
Defined.

(** C5: a node line with fewer than three pipe-delimited fields makes
    [_parse_taxdump] raise [IndexError], and a line after the header of an
    accession file with fewer than three tab-separated columns makes
    [_parse_accession2taxid] raise; neither call skips the line, and each
    leaves the handle as it found it, so that no [Taxa] row of the failed
    [_parse_taxdump] call is stored. *)
Theorem C5_short_line_is_fatal (fails : Store -> Write -> bool) (db : Db) :
  (forall nodes_file names_file line,
     line ∈ PyStr.readlines nodes_file ->
     length (PyStr.split PyStr.PIPE line) < 3 ->
     _parse_taxdump fails nodes_file names_file db = (Raise IndexError, db)) /\
  (forall acc2taxid line,
     line ∈ tail (PyStr.readlines acc2taxid) ->
     length (PyStr.split PyStr.TAB (PyStr.rstrip PyStr.LF line)) < 3 ->
     exists e, _parse_accession2taxid fails acc2taxid db = (Raise e, db)).
Proof.
  split.
  - intros nodes_file names_file line Hin Hshort.
    unfold _parse_taxdump, DbM.bind, DbM.lift.
    by rewrite (parse_nodes_short nodes_file line).
  - intros acc2taxid line Hin Hshort.
    unfold _parse_accession2taxid.
    rewrite atomic_outcome by apply create_sequences_keeps.
    unfold scope_outcome.
    pose proof (create_sequences_raises fails _ line
      {| store := store db; savepoints := store db :: savepoints db |} Hin) as Hraise.
    rewrite accession_record_short in Hraise by done.
    specialize (Hraise eq_refl).
    destruct (create_sequences _ _ _) as [[[]|e] db2]; [done|by exists e].
Qed.

Lemma C5_short_line_is_fatal_witness :
  _parse_taxdump never_fails truncated_nodes misaligned_names fresh_db
    = (Raise IndexError, fresh_db) /\
  exists e, _parse_accession2taxid never_fails truncated_accessions db_after_first_load
    = (Raise e, db_after_first_load).
Proof.
  destruct (C5_short_line_is_fatal never_fails fresh_db) as [Hnodes _].
  destruct (C5_short_line_is_fatal never_fails db_after_first_load) as [_ Hacc].
  split.
  - apply (Hnodes truncated_nodes misaligned_names (truncated_node_line +:+ eol)).
    + apply (list_elem_of_lookup_2 _ 1). vm_compute. reflexivity.
    + vm_compute. lia.
  - apply (Hacc truncated_accessions (accession_short +:+ eol)).
    + apply (list_elem_of_lookup_2 _ 1). vm_compute. reflexivity.
    + vm_compute. lia.
Defined.

(** ** What the parsers keep in memory *)

Section MemoryFacts.

Lemma parse_nodes_replicate n line d :
  PyStr.no_char PyStr.LF line ->
  node_record (line +:+ eol) = Ok d ->
  parse_nodes (PyStr.unlines (replicate n line)) = Ok (replicate n d).
Proof.
  intros Hline Hd. unfold parse_nodes.
  rewrite readlines_unlines by by apply Forall_replicate.
  rewrite fmap_replicate. fold eol.
  induction n as [|n IH]; simpl; [done|].
  by rewrite Hd, IH.
Qed.

Lemma bacteria_node_line_one_line : PyStr.no_char PyStr.LF bacteria_node_line.
Proof.
  vm_compute. intros Hin.
  repeat (apply elem_of_cons in Hin as [Hin|Hin]; [discriminate|]).
  by apply elem_of_nil in Hin.
Qed.

End MemoryFacts.




(** * Further properties of the loaders *)

(** ** The string methods as the parsers use them *)

Section MoreStringFacts.

Import PyStr.

Lemma split_pieces_no_sep sep s : Forall (no_char sep) (split sep s).
Proof.
  induction s as [|c s IH]; simpl.
  - repeat constructor. unfold no_char. simpl. apply not_elem_of_nil.
  - case_decide as Hc.
    + constructor; [|done]. unfold no_char. simpl. apply not_elem_of_nil.
    + destruct (split sep s) as [|w ws]; simpl.
      * repeat constructor. apply no_char_cons. split; [done|].
        unfold no_char. simpl. apply not_elem_of_nil.
      * apply Forall_cons in IH as [Hw Hws]. constructor; [|done].
        by apply no_char_cons.
Qed.

Lemma join_split sep s : String.concat (String sep "") (split sep s) = s.
Proof.
  induction s as [|c s IH]; [done|]. simpl split.
  pose proof (split_nonempty sep s) as Hne.
  destruct (split sep s) as [|w ws]; [done|].
  case_decide as Hc.
  - subst c. change (String.concat (String sep "") ("" :: w :: ws))
      with (String sep (String.concat (String sep "") (w :: ws))).
    by rewrite IH.
  - rewrite <- IH. by destruct ws.
Qed.

Lemma length_split sep s : length (split sep s) = S (count_char sep s).
Proof.
  induction s as [|c s IH]; [done|]. simpl.
  pose proof (split_nonempty sep s) as Hne.
  case_decide; simpl; [by rewrite IH|].
  destruct (split sep s) as [|w ws]; [done|]. simpl in *. lia.
Qed.

Lemma lstrip_not_starts c s : ~ starts_with_char c (lstrip c s).
Proof.
  induction s as [|a s IH]; simpl; [tauto|].
  case_decide; [done|]. simpl. done.
Qed.

Lemma rstrip_not_ends c s : ~ ends_with_char c (rstrip c s).
Proof.
  induction s as [|a s IH]; simpl; [tauto|].
  destruct (rstrip c s) as [|b r] eqn:Hr.
  - case_decide; simpl; tauto.
  - exact IH.
Qed.

Lemma rstrip_starts c s : starts_with_char c (rstrip c s) -> starts_with_char c s.
Proof.
  destruct s as [|a s]; simpl; [done|].
  destruct (rstrip c s); [case_decide|]; simpl; tauto.
Qed.

Lemma append_cons a (x y : string) : String a x +:+ y = String a (x +:+ y).
Proof. done. Qed.

Lemma lstrip_run c s : exists n, s = repeat_char n c +:+ lstrip c s.
Proof.
  induction s as [|a s [n IH]]; simpl.
  - by exists 0.
  - case_decide as Ha.
    + subst a. exists (S n). simpl. rewrite append_cons. by f_equal.
    + by exists 0.
Qed.

Lemma rstrip_run c s : exists m, s = rstrip c s +:+ repeat_char m c.
Proof.
  induction s as [|a s [m IH]]; simpl.
  - by exists 0.
  - destruct (rstrip c s) as [|b r] eqn:Hr.
    + case_decide as Ha.
      * subst a. exists (S m). exact (f_equal (String c) IH).
      * exists m. exact (f_equal (String a) IH).
    + exists m. exact (f_equal (String a) IH).
Qed.


Lemma strip_clean c s :
  ~ starts_with_char c (strip c s) /\ ~ ends_with_char c (strip c s).
Proof.
  unfold strip. split.
  - intros Hs%rstrip_starts. by apply lstrip_not_starts in Hs.
  - apply rstrip_not_ends.
Qed.



End MoreStringFacts.

(** X1: [str.split] loses nothing and cuts at every separator: the pieces
    of a line joined again by the separator give the line back, no piece
    holds the separator, and there is one piece more than separators. *)
Theorem split_round_trip (sep : ascii) (s : string) :
  String.concat (String sep "") (PyStr.split sep s) = s /\
  Forall (PyStr.no_char sep) (PyStr.split sep s) /\
  length (PyStr.split sep s) = S (count_char sep s).
Proof.
  split_and!; [apply join_split|apply split_pieces_no_sep|apply length_split].
Qed.


(** X3: [strip] removes the given character at the two ends only: the
    text is a run of the character, the stripped text and a run of the
    character again, and the stripped text neither begins nor ends with
    the character. *)
Theorem strip_only_at_the_ends (c : ascii) (s : string) :
  (exists n m, s = repeat_char n c +:+ PyStr.strip c s +:+ repeat_char m c) /\
  ~ starts_with_char c (PyStr.strip c s) /\
  ~ ends_with_char c (PyStr.strip c s).
Proof.
  split; [|apply strip_clean].
  destruct (lstrip_run c s) as [n Hn].
  destruct (rstrip_run c (PyStr.lstrip c s)) as [m Hm].
  exists n, m. unfold PyStr.strip. by rewrite <- Hm.
Qed.

(** ** The records of the dump files, further *)

Section MoreParserFacts.

Import PyStr.

Lemma no_char_app c (a b : string) :
  no_char c (a +:+ b) <-> no_char c a /\ no_char c b.
Proof.
  induction a as [|x a IH].
  - change ("" +:+ b) with b. split; [|tauto]. intros Hb. split; [|done].
    unfold no_char. simpl. apply not_elem_of_nil.
  - rewrite append_cons, !no_char_cons, IH. tauto.
Qed.

Lemma strip_no_char c d s : no_char c s -> no_char c (strip d s).
Proof.
  intros Hs.
  destruct (lstrip_run d s) as [n Hn].
  destruct (rstrip_run d (lstrip d s)) as [m Hm].
  rewrite Hn, Hm in Hs. fold (strip d s) in Hs.
  by apply no_char_app in Hs as [_ [Hs _]%no_char_app].
Qed.

Lemma strip_piece_clean line i x :
  split PIPE line !! i = Some x ->
  no_char PIPE (strip TAB x) /\
  ~ starts_with_char TAB (strip TAB x) /\ ~ ends_with_char TAB (strip TAB x).
Proof.
  intros Hx. split; [|apply strip_clean].
  apply strip_no_char.
  pose proof (split_pieces_no_sep PIPE line) as Hall.
  rewrite Forall_forall in Hall. apply Hall. by eapply list_elem_of_lookup_2.
Qed.

Lemma name_record_raise line e : name_record line = Raise e -> e = IndexError.
Proof.
  unfold name_record. destruct (contains _ line); [|done]. cbv zeta.
  destruct (split PIPE line) as [|x0 [|x1 rest]]; simpl; congruence.
Qed.

Lemma name_record_short line :
  retained line = true -> length (split PIPE line) < 2 ->
  name_record line = Raise IndexError.
Proof.
  unfold name_record, retained. intros ->. cbv zeta.
  destruct (split PIPE line) as [|x0 [|x1 rest]]; simpl; by try lia.
Qed.

Lemma name_record_skipped line : retained line = false -> name_record line = Ok None.
Proof. unfold name_record, retained. by intros ->. Qed.

(** The second loop sees the kept lines only. *)
Lemma collect_names_filter lines :
  Res.collect name_record lines
  = Res.collect name_record (filter (fun l => retained l = true) lines).
Proof.
  induction lines as [|line lines IH]; [done|].
  rewrite filter_cons. destruct (decide (retained line = true)) as [Hkept|Hkept].
  - simpl. by rewrite IH.
  - apply not_true_is_false in Hkept. simpl.
    rewrite (name_record_skipped line Hkept). simpl. rewrite IH.
    generalize (Res.collect name_record (filter (fun l => retained l = true) lines)).
    by intros [rest|e].
Qed.

Lemma parse_names_none names_file :
  Forall (fun l => retained l = false) (readlines names_file) ->
  parse_names names_file = Ok [].
Proof.
  intros Hnone. unfold parse_names. rewrite collect_names_filter.
  replace (filter _ (readlines names_file)) with (@nil string); [done|].
  induction Hnone as [|l ls Hl _ IH]; [done|].
  rewrite filter_cons_False by (by rewrite Hl). exact IH.
Qed.

Lemma node_record_of_pieces line x0 x1 x2 rest :
  split PIPE line = x0 :: x1 :: x2 :: rest ->
  node_record line
  = Ok {[ "ncbi_taxid" := strip TAB x0; "parent_taxid" := strip TAB x1;
          "tax_name" := ""; "lineage_level" := strip TAB x2 ]}.
Proof. unfold node_record. by intros ->. Qed.

Lemma name_record_of_pieces line x0 x1 rest :
  retained line = true ->
  split PIPE line = x0 :: x1 :: rest ->
  name_record line
  = Ok (Some {[ "ncbi_taxid" := strip TAB x0; "tax_name" := strip TAB x1 ]}).
Proof. unfold name_record, retained. by intros -> ->. Qed.

Lemma parse_names_replicate n line d :
  no_char LF line ->
  name_record (line +:+ eol) = Ok (Some d) ->
  parse_names (unlines (replicate n line)) = Ok (replicate n d).
Proof.
  intros Hline Hd. unfold parse_names.
  rewrite readlines_unlines by by apply Forall_replicate.
  rewrite fmap_replicate. fold eol.
  induction n as [|n IH]; simpl; [done|].
  by rewrite Hd, IH.
Qed.

Lemma bacteria_name_line_one_line : no_char LF bacteria_name_line.
Proof.
  vm_compute. intros Hin.
  repeat (apply elem_of_cons in Hin as [Hin|Hin]; [discriminate|]).
  by apply elem_of_nil in Hin.
Qed.

(** The records of the two lines of the example, each with its line
    feed. *)
Lemma bacteria_node_record :
  exists d, node_record (bacteria_node_line +:+ eol) = Ok d.
Proof.
  eexists. eapply node_record_of_pieces. vm_compute. reflexivity.
Qed.

Lemma bacteria_name_record :
  exists d, name_record (bacteria_name_line +:+ eol) = Ok (Some d).
Proof.
  eexists. eapply name_record_of_pieces; vm_compute; reflexivity.
Qed.

Lemma merge_all_nil_r nodes_data : merge_all nodes_data [] = [].
Proof. by destruct nodes_data. Qed.

Lemma parse_taxdump_raise_restores fails nodes_file names_file db e db' :
  _parse_taxdump fails nodes_file names_file db = (Raise e, db') -> db' = db.
Proof.
  unfold _parse_taxdump, DbM.bind, DbM.lift.
  destruct (parse_nodes nodes_file) as [nodes_data|]; [|congruence].
  destruct (parse_names names_file) as [names_data|]; [|congruence].
  apply atomic_raise_restores, insert_batches_keeps.
Qed.

Lemma parse_accession2taxid_raise_restores fails acc2taxid db e db' :
  _parse_accession2taxid fails acc2taxid db = (Raise e, db') -> db' = db.
Proof. apply atomic_raise_restores, create_sequences_keeps. Qed.

End MoreParserFacts.

(** X4: the fields a node record and a name record take from a line
    hold no pipe and neither begin nor end with a tab. *)
Theorem parsed_fields_are_clean (line : string) :
  (forall d, node_record line = Ok d ->
     clean_field "ncbi_taxid" d /\ clean_field "parent_taxid" d /\
     clean_field "lineage_level" d) /\
  (forall d, name_record line = Ok (Some d) ->
     clean_field "ncbi_taxid" d /\ clean_field "tax_name" d).
Proof.
  split; intros d Hd.
  - apply node_record_keys in Hd
      as (x0 & x1 & x2 & H0 & H1 & H2 & Hid & Hparent & _ & Hrank).
    split_and!; eexists; (split; [eassumption|]); by eapply strip_piece_clean.
  - apply name_record_keys in Hd as (_ & _ & x0 & x1 & H0 & H1 & Hid & Hname).
    split_and!; eexists; (split; [eassumption|]); by eapply strip_piece_clean.
Qed.

Lemma parsed_fields_are_clean_witness :
  exists d, node_record (bacteria_node_line +:+ eol) = Ok d /\
            clean_field "ncbi_taxid" d /\ clean_field "parent_taxid" d /\
            clean_field "lineage_level" d.
Proof.
  destruct bacteria_node_record as [d Hd].
  exists d. split; [exact Hd|].
  by apply (parsed_fields_are_clean (bacteria_node_line +:+ eol)).
Defined.

(** X5: a name line is read only if it holds the marker: the records of
    a name file are those of its kept lines, whatever the other lines
    hold, and a file without a kept line gives no record and no
    exception. *)
Theorem names_without_marker_are_ignored (names_file : string) :
  parse_names names_file
    = Res.collect name_record
        (filter (fun l => retained l = true) (PyStr.readlines names_file)) /\
  (Forall (fun l => retained l = false) (PyStr.readlines names_file) ->
   parse_names names_file = Ok []).
Proof.
  split; [apply collect_names_filter|apply parse_names_none].
Qed.

Lemma names_without_marker_are_ignored_witness :
  parse_names synonyms_only = Ok [].
Proof.
  apply (names_without_marker_are_ignored synonyms_only).
  repeat constructor.
Defined.

(** X6: a kept name line without a pipe has no second field: once the
    node file is read, [_parse_taxdump] raises [IndexError] and stores
    nothing. *)
Theorem name_line_without_pipe_is_fatal
    (fails : Store -> Write -> bool) (nodes_file names_file line : string)
    (nodes_data : list Dict) (db : Db) :
  parse_nodes nodes_file = Ok nodes_data ->
  line ∈ PyStr.readlines names_file ->
  retained line = true ->
  length (PyStr.split PyStr.PIPE line) < 2 ->
  _parse_taxdump fails nodes_file names_file db = (Raise IndexError, db).
Proof.
  intros Hnodes Hin Hkept Hshort.
  unfold _parse_taxdump, DbM.bind, DbM.lift. rewrite Hnodes.
  unfold parse_names.
  rewrite (collect_raises name_record IndexError line); [done| |done|].
  - intros y e. apply name_record_raise.
  - by apply name_record_short.
Qed.

Lemma name_line_without_pipe_is_fatal_witness :
  _parse_taxdump never_fails (PyStr.unlines (replicate 1 bacteria_node_line))
    name_line_without_pipe fresh_db
    = (Raise IndexError, fresh_db).
Proof.
  destruct bacteria_node_record as [d Hd].
  eapply (name_line_without_pipe_is_fatal never_fails
            (PyStr.unlines (replicate 1 bacteria_node_line))
            name_line_without_pipe name_line_without_pipe).
  - exact (parse_nodes_replicate 1 _ d bacteria_node_line_one_line Hd).
  - apply (list_elem_of_lookup_2 _ 0). vm_compute. reflexivity.
  - vm_compute. reflexivity.
  - vm_compute. lia.
Defined.

(** X7: when a call of [_parse_taxdump] raises, for a line it cannot
    read, a refused batch or a refused commit, the handle is the one the
    call started with: the batches written before the failure are gone
    with it. *)
Theorem failed_taxdump_leaves_no_row
    (fails : Store -> Write -> bool) (nodes_file names_file : string)
    (db db' : Db) (e : Exn) :
  _parse_taxdump fails nodes_file names_file db = (Raise e, db') ->
  db' = db.
Proof. apply parse_taxdump_raise_restores. Qed.

(** The load of 501 taxa on a disk that is full after 500 rows: the
    first batch is written, the second is refused. *)
Example second_batch_is_refused :
  let r := insert_batches (taxa_full_after 500) (replicate 501 bacteria)
             {| store := empty_store; savepoints := [empty_store] |} in
  r.1 = Raise DatabaseError /\ length (Taxa (store r.2)) = 500.
Proof. cbv zeta. split; vm_compute; reflexivity. Qed.

Lemma failed_taxdump_leaves_no_row_witness :
  (_parse_taxdump (taxa_full_after 500) many_nodes many_names fresh_db).2 = fresh_db.
Proof.
  apply (failed_taxdump_leaves_no_row (taxa_full_after 500) many_nodes many_names
           fresh_db _ DatabaseError).
  vm_compute. reflexivity.
Defined.

(** X8: when the merge is empty, because the node file is empty or the
    name file has no kept line, the insert loop does not run:
    [_parse_taxdump] returns normally if the storage layer takes the
    commit, even one that would refuse every insert, and the handle is as
    before. *)
Theorem nothing_to_merge_loads_nothing
    (fails : Store -> Write -> bool) (nodes_file names_file : string) (db : Db) :
  fails (store db) Commit = false ->
  (forall names_data,
     parse_names names_file = Ok names_data ->
     _parse_taxdump fails "" names_file db = (Ok tt, db)) /\
  (forall nodes_data,
     parse_nodes nodes_file = Ok nodes_data ->
     Forall (fun l => retained l = false) (PyStr.readlines names_file) ->
     _parse_taxdump fails nodes_file names_file db = (Ok tt, db)).
Proof.
  intros Hcommit.
  assert (Hempty : atomic fails (insert_batches fails []) db = (Ok tt, db)).
  { rewrite atomic_outcome by apply insert_batches_keeps.
    unfold scope_outcome. simpl. rewrite Hcommit. by destruct db. }
  split.
  - intros names_data Hnames.
    unfold _parse_taxdump, DbM.bind, DbM.lift. simpl. by rewrite Hnames.
  - intros nodes_data Hnodes Hnone.
    unfold _parse_taxdump, DbM.bind, DbM.lift.
    rewrite Hnodes, parse_names_none by done. by rewrite merge_all_nil_r.
Qed.

Lemma nothing_to_merge_loads_nothing_witness :
  _parse_taxdump refuses_inserts "" (PyStr.unlines (replicate 2 bacteria_name_line)) fresh_db
    = (Ok tt, fresh_db) /\
  _parse_taxdump refuses_inserts (PyStr.unlines (replicate 2 bacteria_node_line))
    synonyms_only fresh_db
    = (Ok tt, fresh_db).
Proof.
  destruct bacteria_node_record as [d Hd].
  destruct bacteria_name_record as [d' Hd'].
  destruct (nothing_to_merge_loads_nothing refuses_inserts
              (PyStr.unlines (replicate 2 bacteria_node_line))
              (PyStr.unlines (replicate 2 bacteria_name_line)) fresh_db eq_refl)
    as [Hnodes _].
  destruct (nothing_to_merge_loads_nothing refuses_inserts
              (PyStr.unlines (replicate 2 bacteria_node_line))
              synonyms_only fresh_db eq_refl) as [_ Hnames].
  split.
  - eapply Hnodes.
    exact (parse_names_replicate 2 _ d' bacteria_name_line_one_line Hd').
  - eapply Hnames.
    + exact (parse_nodes_replicate 2 _ d bacteria_node_line_one_line Hd).
    + repeat constructor.
Defined.

(** ** The merge and the loads, further *)

Section MoreMergeFacts.

Lemma merge_same_taxon nodes names :
  same_taxon nodes names -> merge nodes names = with_name nodes names.
Proof.
  intros (i & n & Hi & ->). unfold merge, with_name.
  apply map_eq. intros k.
  assert (Hname : ({[ "ncbi_taxid" := i; "tax_name" := n ]} : Dict) !! "tax_name" = Some n).
  { rewrite lookup_insert_ne by done. apply lookup_singleton_eq. }
  rewrite lookup_union, Hname.
  destruct (decide (k = "tax_name")) as [->|Hk].
  - rewrite Hname, lookup_insert_eq. simpl.
    by destruct (nodes !! "tax_name").
  - rewrite (lookup_insert_ne nodes) by done.
    destruct (decide (k = "ncbi_taxid")) as [->|Hid].
    + rewrite lookup_insert_eq, Hi. done.
    + rewrite lookup_insert_ne, lookup_singleton_ne by done.
      by destruct (nodes !! k).
Qed.

Lemma merge_all_app_nodes nodes_data extra names_data :
  length names_data <= length nodes_data ->
  merge_all (nodes_data ++ extra) names_data = merge_all nodes_data names_data.
Proof.
  revert names_data.
  induction nodes_data as [|nodes nodes_data IH]; intros [|names names_data] Hlen;
    simpl in *; try done; try lia.
  all: try by destruct extra.
  all: try (f_equal; apply IH; lia).
Qed.

Lemma merge_all_app_names nodes_data names_data extra :
  length nodes_data <= length names_data ->
  merge_all nodes_data (names_data ++ extra) = merge_all nodes_data names_data.
Proof.
  revert names_data.
  induction nodes_data as [|nodes nodes_data IH]; intros [|names names_data] Hlen;
    simpl in *; try done; try lia.
  f_equal. apply IH. lia.
Qed.

End MoreMergeFacts.

(** X9: where the two files are aligned, each node record facing the
    name record of the same taxon, the merge is the join on the taxon
    id: every merged record is the node record with the scientific name
    put in, taxon id, parent and rank being the node's. *)
Theorem aligned_merge_is_the_join (nodes_data names_data : list Dict) :
  Forall2 same_taxon nodes_data names_data ->
  merge_all nodes_data names_data = zip_with with_name nodes_data names_data.
Proof.
  induction 1 as [|nodes names nodes_data names_data Hsame _ IH]; simpl; [done|].
  by rewrite merge_same_taxon, IH.
Qed.

Lemma aligned_merge_is_the_join_witness :
  merge_all
    [ ({[ "ncbi_taxid" := "9"; "parent_taxid" := "1"; "tax_name" := "";
          "lineage_level" := "superkingdom" ]} : Dict) ]
    [ ({[ "ncbi_taxid" := "9"; "tax_name" := "Bacteria" ]} : Dict) ]
  = [ with_name
        ({[ "ncbi_taxid" := "9"; "parent_taxid" := "1"; "tax_name" := "";
            "lineage_level" := "superkingdom" ]} : Dict)
        ({[ "ncbi_taxid" := "9"; "tax_name" := "Bacteria" ]} : Dict) ].
Proof.
  apply (aligned_merge_is_the_join
    [ ({[ "ncbi_taxid" := "9"; "parent_taxid" := "1"; "tax_name" := "";
          "lineage_level" := "superkingdom" ]} : Dict) ]
    [ ({[ "ncbi_taxid" := "9"; "tax_name" := "Bacteria" ]} : Dict) ]).
  constructor; [|constructor].
  exists "9", "Bacteria". split; [apply lookup_insert_eq|reflexivity].
Defined.

(** X10: records beyond the shorter list are dropped without a word:
    node records that follow the last name record, and name records that
    follow the last node record, change nothing in the merge. *)
Theorem surplus_records_are_dropped (nodes_data names_data extra : list Dict) :
  (length names_data <= length nodes_data ->
   merge_all (nodes_data ++ extra) names_data = merge_all nodes_data names_data) /\
  (length nodes_data <= length names_data ->
   merge_all nodes_data (names_data ++ extra) = merge_all nodes_data names_data).
Proof.
  split; [apply merge_all_app_nodes|apply merge_all_app_names].
Qed.

Lemma surplus_records_are_dropped_witness :
  merge_all ([bacteria] ++ [bacteria; bacteria]) [bacteria] = merge_all [bacteria] [bacteria] /\
  merge_all [bacteria] ([bacteria] ++ [bacteria; bacteria]) = merge_all [bacteria] [bacteria].
Proof.
  destruct (surplus_records_are_dropped [bacteria] [bacteria] [bacteria; bacteria])
    as [Hnodes Hnames].
  split; [apply Hnodes|apply Hnames]; simpl; lia.
Defined.

(** X11: on a storage layer that refuses nothing, when both files are
    read without exception [_parse_taxdump] adds to [Taxa] as many rows as
    the smaller of the number of lines of the node file and the number of
    kept lines of the name file, and leaves [Sequence] alone. *)
Theorem taxa_rows_added
    (fails : Store -> Write -> bool) (nodes_file names_file : string)
    (nodes_data names_data : list Dict) (db : Db) :
  reliable fails ->
  parse_nodes nodes_file = Ok nodes_data ->
  parse_names names_file = Ok names_data ->
  exists db',
    _parse_taxdump fails nodes_file names_file db = (Ok tt, db') /\
    length (Taxa (store db'))
      = length (Taxa (store db))
        + min (length (PyStr.readlines nodes_file))
              (length (filter (fun l => retained l = true) (PyStr.readlines names_file))) /\
    Sequence (store db') = Sequence (store db).
Proof.
  intros Hreliable Hnodes Hnames.
  rewrite (parse_taxdump_reliable fails Hreliable _ _ (merge_all nodes_data names_data)).
  - eexists. split; [done|]. simpl. split; [|done].
    rewrite length_append_rows, length_merge_all.
    by rewrite (parse_nodes_length _ _ Hnodes), (parse_names_length _ _ Hnames).
  - unfold taxa_info_list_of. by rewrite Hnodes, Hnames.
Qed.

Lemma taxa_rows_added_witness :
  exists db',
    _parse_taxdump never_fails (PyStr.unlines (replicate 3 bacteria_node_line))
      (PyStr.unlines (replicate 2 bacteria_name_line)) fresh_db = (Ok tt, db') /\
    length (Taxa (store db')) = 2.
Proof.
  destruct bacteria_node_record as [d Hd].
  destruct bacteria_name_record as [d' Hd'].
  destruct (taxa_rows_added never_fails (PyStr.unlines (replicate 3 bacteria_node_line))
              (PyStr.unlines (replicate 2 bacteria_name_line))
              (replicate 3 d) (replicate 2 d') fresh_db) as (db' & Hrun & Hlen & _).
  - by intros s w.
  - exact (parse_nodes_replicate 3 _ d bacteria_node_line_one_line Hd).
  - exact (parse_names_replicate 2 _ d' bacteria_name_line_one_line Hd').
  - exists db'. split; [exact Hrun|]. rewrite Hlen. vm_compute. reflexivity.
Defined.

(** X12: the first line of an accession file is never looked at: two
    files that differ in their first line only are loaded alike, rows and
    exceptions, whatever the storage layer does. *)
Theorem header_is_never_read
    (fails : Store -> Write -> bool) (header header' rest : string) (db : Db) :
  PyStr.no_char PyStr.LF header ->
  PyStr.no_char PyStr.LF header' ->
  _parse_accession2taxid fails (header +:+ eol +:+ rest) db
  = _parse_accession2taxid fails (header' +:+ eol +:+ rest) db.
Proof.
  intros Hheader Hheader'. unfold _parse_accession2taxid, eol.
  change (String PyStr.LF "" +:+ rest) with (String PyStr.LF rest).
  by rewrite !readlines_line.
Qed.

Lemma header_is_never_read_witness :
  _parse_accession2taxid never_fails
    (accession_header +:+ eol +:+ accession_AB012345 +:+ eol) fresh_db
  = _parse_accession2taxid never_fails
    ("" +:+ eol +:+ accession_AB012345 +:+ eol) fresh_db.
Proof.
  apply (header_is_never_read never_fails accession_header ""
           (accession_AB012345 +:+ eol) fresh_db).
  - vm_compute. intros Hin.
    repeat (apply elem_of_cons in Hin as [Hin|Hin]; [discriminate|]).
    by apply elem_of_nil in Hin.
  - vm_compute. apply not_elem_of_nil.
Defined.

(** ** The command [create] *)

Section CreateDbFacts.

Variable fails : Store -> Write -> bool.
Variable read_file : string -> string.
Variable db_init : string -> M unit.
Variable db_connect : M unit.
Variable db_create_table : Model -> M unit.
Variable db_close : M unit.

Lemma bind_assoc {A B C} (c : M A) (f : A -> M B) (g : B -> M C) db :
  DbM.bind (DbM.bind c f) g db = DbM.bind c (fun a => DbM.bind (f a) g) db.
Proof. unfold DbM.bind. by destruct (c db) as [[a|e] db']. Qed.

Lemma bind_ext {A B} (c : M A) (f g : A -> M B) db :
  (forall a db', f a db' = g a db') -> DbM.bind c f db = DbM.bind c g db.
Proof. intros Hfg. unfold DbM.bind. by destruct (c db) as [[a|e] db']. Qed.

Lemma bind_ret_unit (c : M unit) db : DbM.bind c (fun _ => DbM.ret tt) db = c db.
Proof. unfold DbM.bind, DbM.ret. by destruct (c db) as [[[]|e] db']. Qed.

(** [create_db] is its set-up, its six loads in order and the closing. *)
Lemma create_db_calls args db :
  create_db fails read_file db_init db_connect db_create_table db_close args db
  = DbM.bind (set_up db_init db_connect db_create_table args)
      (fun _ => DbM.bind (DbM.for_each (load_calls fails read_file args) (fun c => c))
                  (fun _ => db_close)) db.
Proof.
  unfold create_db, set_up, load_calls, accession_names. simpl.
  rewrite !bind_assoc. apply bind_ext. intros _ db1.
  rewrite !bind_assoc. apply bind_ext. intros _ db2.
  rewrite !bind_assoc. apply bind_ext. intros _ db3.
  apply bind_ext. intros _ db4.
  rewrite !bind_assoc. apply bind_ext. intros _ db5.
  rewrite !bind_assoc. apply bind_ext. intros _ db6.
  rewrite !bind_assoc. apply bind_ext. intros _ db7.
  rewrite !bind_assoc. apply bind_ext. intros _ db8.
  rewrite !bind_assoc. apply bind_ext. intros _ db9.
  rewrite !bind_assoc. apply bind_ext. intros _ db10.
  done.
Qed.

Lemma load_call_raise_restores args c db e db' :
  c ∈ load_calls fails read_file args -> c db = (Raise e, db') -> db' = db.
Proof.
  unfold load_calls. intros [->|(name & -> & _)%list_elem_of_fmap]%elem_of_cons.
  - apply parse_taxdump_raise_restores.
  - apply parse_accession2taxid_raise_restores.
Qed.

Lemma parse_accession2taxid_reliable (f : AccessionFile) db :
  reliable fails -> well_formed f ->
  _parse_accession2taxid fails (text_of f) db
  = (Ok tt, {| store := {| Taxa := Taxa (store db);
                           Sequence := append_rows (Sequence (store db))
                                         (accession_of <$> data f) |};
               savepoints := savepoints db |}).
Proof.
  intros Hreliable (Hheader & Hdata & Hcols). unfold text_of.
  assert (Hback : PyStr.rstrip PyStr.LF
            <$> tail (PyStr.readlines (PyStr.file_text (header f :: data f) (closed f)))
            = data f).
  { apply data_lines; [done..|].
    eapply Forall_impl; [exact Hcols|]. apply three_columns_nonempty. }
  unfold _parse_accession2taxid.
  rewrite atomic_outcome by apply create_sequences_keeps.
  unfold scope_outcome.
  set (lines := tail (PyStr.readlines _)) in *.
  rewrite (create_sequences_reliable fails Hreliable
             (fun l => accession_of (PyStr.rstrip PyStr.LF l))).
  - rewrite Hreliable. simpl. do 3 f_equal.
    rewrite <- Hback. by rewrite <- list_fmap_compose.
  - rewrite <- Hback in Hcols. rewrite Forall_forall in Hcols.
    apply Forall_forall. intros l Hl.
    apply accession_record_columns, Hcols. by apply list_elem_of_fmap_2.
Qed.

End CreateDbFacts.

(** X13: [create_db] has no scope of its own around its loads.  When
    one of the six load calls raises after the calls before it returned
    normally, [create_db] raises the same exception and the handle is the
    one those earlier calls left: their rows stay, nothing of the failed
    file is stored, the later files are not read and [db.close()] is not
    reached. *)
Theorem create_db_keeps_earlier_loads
    (fails : Store -> Write -> bool) (read_file : string -> string)
    (db_init : string -> M unit) (db_connect : M unit)
    (db_create_table : Model -> M unit) (db_close : M unit)
    (args : Args) (k : nat) (c : M unit) (db db0 dbk dbk' : Db) (e : Exn) :
  set_up db_init db_connect db_create_table args db = (Ok tt, db0) ->
  load_calls fails read_file args !! k = Some c ->
  DbM.for_each (take k (load_calls fails read_file args)) (fun c => c) db0 = (Ok tt, dbk) ->
  c dbk = (Raise e, dbk') ->
  create_db fails read_file db_init db_connect db_create_table db_close args db
  = (Raise e, dbk).
Proof.
  intros Hset Hk Hbefore Hraise.
  assert (dbk' = dbk) as ->.
  { eapply load_call_raise_restores; [|exact Hraise]. by eapply list_elem_of_lookup_2. }
  rewrite create_db_calls. unfold DbM.bind at 1. rewrite Hset.
  unfold DbM.bind at 1.
  rewrite <- (take_drop_middle _ _ _ Hk) at 1.
  rewrite for_each_app. unfold DbM.bind at 1. rewrite Hbefore.
  simpl. unfold DbM.bind at 1. by rewrite Hraise.
Qed.

Lemma create_db_keeps_earlier_loads_witness :
  exists dbk,
    create_db never_fails (example_dir truncated_accessions) quiet (quiet tt) quiet (quiet tt)
      example_args fresh_db = (Raise IndexError, dbk) /\
    fields <$> Taxa (store dbk) = [bacteria] /\
    length (Sequence (store dbk)) = 4.
Proof.
  eexists. split.
  - eapply (create_db_keeps_earlier_loads never_fails (example_dir truncated_accessions)
              quiet (quiet tt) quiet (quiet tt) example_args 5).
    + reflexivity.
    + reflexivity.
    + vm_compute. reflexivity.
    + vm_compute. reflexivity.
  - split; vm_compute; reflexivity.
Defined.

(** X14: on a storage layer that refuses nothing, with dump files that
    merge into the records [l] and five well-formed accession files,
    [create_db] reaches [db.close()] with the records of [l] added to
    [Taxa] and the records of the data lines of the five files added to
    [Sequence], those of [nucl_est] first, then [nucl_gb], [nucl_gss],
    [nucl_wgs] and [prot]. *)
Theorem create_db_loads_all
    (fails : Store -> Write -> bool) (read_file : string -> string)
    (db_init : string -> M unit) (db_connect : M unit)
    (db_create_table : Model -> M unit) (db_close : M unit)
    (args : Args) (l : list Dict) (files : list AccessionFile) (db db0 : Db) :
  reliable fails ->
  set_up db_init db_connect db_create_table args db = (Ok tt, db0) ->
  taxa_info_list_of (read_file (input args +:+ "/nodes.dmp"))
                    (read_file (input args +:+ "/names.dmp")) = Ok l ->
  Forall2 (fun name f => read_file (input args +:+ "/" +:+ name) = text_of f /\
                         well_formed f)
          accession_names files ->
  create_db fails read_file db_init db_connect db_create_table db_close args db
  = db_close
      {| store := {| Taxa := append_rows (Taxa (store db0)) l;
                     Sequence := append_rows (Sequence (store db0))
                                   (accession_of <$> concat (data <$> files)) |};
         savepoints := savepoints db0 |}.
Proof.
  intros Hreliable Hset Hl Hfiles.
  unfold accession_names in Hfiles.
  repeat match goal with
         | H : Forall2 _ (_ :: _) _ |- _ =>
             apply Forall2_cons_inv_l in H as (? & ? & [? ?] & H & ->)
         | H : Forall2 _ [] _ |- _ => apply Forall2_nil_inv_l in H as ->
         end.
  rewrite create_db_calls. unfold DbM.bind at 1. rewrite Hset.
  unfold load_calls, accession_names. simpl.
  unfold DbM.bind.
  rewrite (parse_taxdump_reliable fails Hreliable _ _ l) by done.
  repeat match goal with
         | H : read_file _ = text_of _ |- _ => simpl in H; rewrite H; clear H
         end.
  rewrite !(parse_accession2taxid_reliable fails) by done. simpl.
  rewrite app_nil_r, !fmap_app, !append_rows_app. done.
Qed.

Lemma create_db_loads_all_witness :
  exists db',
    create_db never_fails (example_dir first_accessions) quiet (quiet tt) quiet (quiet tt)
      example_args fresh_db = (Ok tt, db') /\
    fields <$> Taxa (store db') = [bacteria] /\
    length (Sequence (store db')) = 5.
Proof.
  eexists. split.
  - rewrite (create_db_loads_all never_fails (example_dir first_accessions)
               quiet (quiet tt) quiet (quiet tt) example_args [bacteria]
               (replicate 5 {| header := accession_header;
                               data := [accession_AB012345]; closed := true |})
               fresh_db fresh_db).
    + reflexivity.
    + intros s w. reflexivity.
    + reflexivity.
    + vm_compute. reflexivity.
    + repeat constructor; try (vm_compute; reflexivity); try (vm_compute; lia);
        vm_compute; intros Hin;
        repeat (apply elem_of_cons in Hin as [Hin|Hin]; [discriminate|]);
        by apply elem_of_nil in Hin.
  - split; vm_compute; reflexivity.
Defined.

(** ** The md5 check *)

Section Md5Facts.

Import Md5.








Lemma update_chunks_zero fuel rest file_md5 :
  0 < fuel -> update_chunks fuel 0 rest file_md5 = Some file_md5.
Proof.
  destruct fuel as [|fuel]; [lia|]. intros _. simpl.
  unfold read. simpl. by destruct rest.
Qed.

Lemma isspace_LF : isspace PyStr.LF = true.
Proof. done. Qed.

Lemma split_blank_all_blank s : all_blank s -> split_blank s = [].
Proof.
  unfold all_blank. induction s as [|c s IH]; simpl; [done|].
  intros [Hc Hs]%Forall_cons. rewrite Hc. by apply IH.
Qed.

Lemma split_blank_cons_blank c s :
  isspace c = true -> split_blank (String c s) = split_blank s.
Proof. intros Hc. simpl. by rewrite Hc. Qed.

Lemma split_blank_cons_word a s :
  isspace a = false ->
  split_blank (String a s)
  = match s with
    | EmptyString => [String a EmptyString]
    | String c _ =>
        if isspace c then String a EmptyString :: split_blank s
        else match split_blank s with
             | [] => [String a EmptyString]
             | w :: ws => String a w :: ws
             end
    end.
Proof. intros Ha. simpl. by rewrite Ha. Qed.

Lemma split_blank_first_word w c rest :
  no_blank w -> w <> "" -> isspace c = true ->
  split_blank (w +:+ String c rest) = w :: split_blank rest.
Proof.
  unfold no_blank. intros Hw Hne Hc.
  induction w as [|a w IH]; [done|].
  simpl in Hw. apply Forall_cons in Hw as [Ha Hw].
  rewrite append_cons, split_blank_cons_word by done.
  destruct w as [|b w].
  - change ("" +:+ String c rest) with (String c rest). cbv iota.
    by rewrite Hc, split_blank_cons_blank.
  - rewrite append_cons in *. simpl in Hw.
    pose proof Hw as [Hb _]%Forall_cons. rewrite Hb.
    by rewrite IH.
Qed.

Lemma readline_first_word w c rest :
  no_blank w -> exists rest', readline (w +:+ String c rest) = w +:+ String c rest'.
Proof.
  unfold no_blank, readline. intros Hw.
  induction w as [|a w IH].
  - change ("" +:+ String c rest) with (String c rest). simpl.
    case_decide; [by exists ""|].
    destruct (PyStr.readlines rest) as [|l ls]; [by exists ""|by exists l].
  - simpl in Hw. apply Forall_cons in Hw as [Ha Hw].
    destruct (IH Hw) as [rest' Hrest']. exists rest'.
    rewrite !append_cons. simpl PyStr.readlines.
    rewrite decide_False by (intros ->; by rewrite isspace_LF in Ha).
    destruct (PyStr.readlines (w +:+ String c rest)) as [|l ls]; simpl in *.
    + by destruct w.
    + by rewrite Hrest'.
Qed.

End Md5Facts.



(** X16: with a block size of zero the first read is empty and the loop
    ends at once: [_md5_check] compares the digest of no byte at all with
    the expected one, whatever the file holds. *)
Theorem zero_block_size_hashes_nothing
    (read_file : string -> string) (md5_hexdigest : string -> string)
    (file : string) (expected : string) :
  Md5.split_blank (Md5.readline (read_file (file +:+ ".md5"))) !! 0 = Some expected ->
  _md5_check read_file md5_hexdigest file 0
  = compared (md5_hexdigest "") expected.
Proof.
  intros Hword. unfold _md5_check, _md5_check_within, compared.
  rewrite Hword, update_chunks_zero by lia. done.
Qed.

Lemma zero_block_size_hashes_nothing_witness :
  _md5_check example_md5_dir plain_digest "f" 0 = Some (inl Md5.AssertionError).
Proof.
  rewrite (zero_block_size_hashes_nothing example_md5_dir plain_digest "f" "hello");
    [vm_compute; reflexivity|vm_compute; reflexivity].
Defined.

(** X17: when the first line of the digest file is empty or blank,
    [_md5_check] raises [IndexError], whatever the file and the later
    lines of the digest file hold; it is not the [assert] that fails. *)
Theorem blank_digest_line_is_an_index_error
    (read_file : string -> string) (md5_hexdigest : string -> string)
    (file : string) (block_size : Z) :
  all_blank (Md5.readline (read_file (file +:+ ".md5"))) ->
  _md5_check read_file md5_hexdigest file block_size = Some (inl Md5.IndexError).
Proof.
  intros Hblank. unfold _md5_check, _md5_check_within.
  by rewrite split_blank_all_blank.
Qed.

Lemma blank_digest_line_is_an_index_error_witness :
  _md5_check example_md5_dir plain_digest "blank" Md5.default_block_size
  = Some (inl Md5.IndexError).
Proof.
  apply (blank_digest_line_is_an_index_error example_md5_dir plain_digest "blank").
  replace (Md5.readline (example_md5_dir ("blank" +:+ ".md5"))) with ("  " +:+ eol)
    by (vm_compute; reflexivity).
  unfold all_blank. simpl. repeat (constructor; [reflexivity|]). constructor.
Defined.

(** X18: the expected digest is the first word of the digest file: when
    the file begins with a word followed by a blank, as in the layout
    digest, blanks, file name, that word is taken, and what follows it,
    on the line and on later lines, is not looked at. *)
Theorem expected_digest_is_the_first_word (word : string) (c : ascii) (rest : string) :
  no_blank word -> word <> "" -> Md5.isspace c = true ->
  Md5.split_blank (Md5.readline (word +:+ String c rest)) !! 0 = Some word.
Proof.
  intros Hword Hne Hc.
  destruct (readline_first_word word c rest Hword) as [rest' ->].
  by rewrite split_blank_first_word.
Qed.

Lemma expected_digest_is_the_first_word_witness :
  Md5.split_blank (Md5.readline ("d41d8cd98f00b204e9800998ecf8427e" +:+ String " " " taxdump.tar.gz"))
    !! 0 = Some "d41d8cd98f00b204e9800998ecf8427e".
Proof.
  apply (expected_digest_is_the_first_word "d41d8cd98f00b204e9800998ecf8427e" " "
           " taxdump.tar.gz").
  - unfold no_blank. simpl. repeat (constructor; [reflexivity|]). constructor.
  - discriminate.
  - reflexivity.
Defined.

(** ** The batches of the insert loop, further *)


